(** * system-stats-backend: a shallow embedding of [main.go]

    The development follows the source file top to bottom: the values the
    program manipulates (errors, gopsutil readings, [SystemStats],
    [ProcessInfo]), the snapshot assembler [getStats], the JSON encoding
    fixed by the struct tags, the two HTTP handlers and the server
    construction.  Calls into the operating system are effects: they are
    answered by a [MetricsSource] (the state of the host at the time of
    the call) and recorded in a call log. *)

From Stdlib Require Import ZArith Ascii String Floats.PrimFloat Uint63.
From stdpp Require Import base gmap strings list.

#[local] Set Warnings "-inexact-float,-register-all".
#[local] Open Scope Z_scope.

(** ** Strings with line feeds *)

Definition nl : string := String "010"%char "".

(** ** Go errors

    [fmt.Errorf] without a [%w] verb builds a plain error holding the
    formatted text; with [%w] it builds an error holding the formatted text
    (which includes the text of its operand) and the operand itself, which
    [errors.Unwrap] gives back. *)

Inductive error : Type :=
| errorString (s : string)
| wrapError (msg : string) (err : error).

Definition Error (e : error) : string :=
  match e with
  | errorString s => s
  | wrapError msg _ => msg
  end.

Definition Unwrap (e : error) : option error :=
  match e with
  | errorString _ => None
  | wrapError _ err => Some err
  end.

(** [fmt.Errorf(format)] for a format without verbs. *)
Definition Errorf (format : string) : error := errorString format.

(** [fmt.Errorf(prefix + "%w", err)]. *)
Definition Errorf_w (prefix : string) (err : error) : error :=
  wrapError (prefix +:+ Error err) err.

(** A Go result pair [(value, err)] with exactly one side set. *)
Inductive result (A : Type) : Type :=
| Ok (a : A)
| Err (err : error).
Arguments Ok {A} a.
Arguments Err {A} err.

Definition is_ok {A : Type} (r : result A) : bool :=
  match r with Ok _ => true | Err _ => false end.

(** ** Machine numbers *)

Definition wrap_uint64 (z : Z) : Z := z mod 2 ^ 64.

(** The conversion [int64(x)] of an unsigned 64-bit value: same bits, read
    in two's complement. *)
Definition int64_of_uint64 (z : Z) : Z :=
  if z <? 2 ^ 63 then z else z - 2 ^ 64.


(** [float32(n)] for an unsigned 64-bit [n]: [n] rounded to 24 significant
    bits, ties to even.  The result [m * 2 ^ k] is returned as the pair
    [(m, k)], with [m <= 2 ^ 24]. *)
Definition round24 (n : Z) : Z * Z :=
  if n <? 2 ^ 24 then (n, 0)
  else
    let k := Z.log2 n - 23 in
    let q := Z.shiftr n k in
    let r := Z.land n (Z.ones k) in
    let half := 2 ^ (k - 1) in
    if (half <? r) || ((r =? half) && Z.odd q) then (q + 1, k) else (q, k).

(** A float32 value is carried by the binary64 float that equals it (every
    float32 is one).  Both factors below and their product are exact. *)
Definition float32 : Type := float.

Definition float32_of_uint64 (n : Z) : float32 :=
  let '(m, k) := round24 n in
  (PrimFloat.of_uint63 (Uint63.of_Z m) * PrimFloat.of_uint63 (Uint63.of_Z (2 ^ k)))%float.

(** [x / (1024 * 1024)] in float32: the divisor is a power of two and the
    quotient is far from the subnormal range, so the division is exact and
    agrees with the binary64 one. *)
Definition div_MiB (x : float32) : float32 := (x / 1048576)%float.

(** ** The program's data (main.go, lines 21-50) *)

Definition defaultPort : string := "3000".
Definition apiPrefix : string := "/api".

Record ProcessInfo : Type := {
  PID : Z;                (* int32 *)
  PName : string;         (* field Name *)
  PCPUPercent : float;    (* field CPUPercent, float64 *)
  MemoryUsage : float32   (* in MB *)
}.

Record SystemStats : Type := {
  CPUUsage : float;
  MemUsage : float;
  DiskUsage : float;
  NetTraffic : Z;         (* int64 *)
  Processes : list ProcessInfo
}.

(** ** The host, as gopsutil shows it *)

Record VirtualMemoryStat : Type := { mem_UsedPercent : float }.
Record UsageStat : Type := { disk_UsedPercent : float }.
Record IOCountersStat : Type := { BytesSent : Z; BytesRecv : Z }.  (* uint64 *)
Record MemoryInfoStat : Type := { RSS : Z }.                        (* uint64 *)

(** A process handle: its pid and what each of its three reads answers. *)
Record Process : Type := {
  Pid : Z;
  Name : result string;
  CPUPercent : result float;
  MemoryInfo : result MemoryInfoStat
}.

(** What each gopsutil entry point answers at the time of one sampling. *)
Record MetricsSource : Type := {
  cpu_Percent : result (list float);            (* cpu.Percent(0, false) *)
  mem_VirtualMemory : result VirtualMemoryStat; (* mem.VirtualMemory() *)
  disk_Usage : string -> result UsageStat;      (* disk.Usage(path) *)
  net_IOCounters : result (list IOCountersStat);(* net.IOCounters(false) *)
  process_Processes : result (list Process)     (* process.Processes() *)
}.

(** The reads a sampling performs, in the order it performs them. *)
Inductive call : Type :=
| CallCPUPercent
| CallVirtualMemory
| CallDiskUsage (path : string)
| CallIOCounters
| CallProcesses
| CallName (pid : Z)
| CallProcCPUPercent (pid : Z)
| CallMemoryInfo (pid : Z).

(** ** A small monad: a log of calls and Go's early [return nil, err] *)

Definition M (A : Type) : Type := list call * result A.

Definition ret {A : Type} (a : A) : M A := ([], Ok a).

Definition fail {A : Type} (err : error) : M A := ([], Err err).

Definition bind {A B : Type} (m : M A) (k : A -> M B) : M B :=
  match m with
  | (l1, Ok a) => let '(l2, r) := k a in (l1 ++ l2, r)
  | (l1, Err err) => (l1, Err err)
  end.

Notation "'do' x <- m ; k" := (bind m (fun x => k))
  (at level 20, x pattern, m at level 100, k at level 200, only parsing).

(** Perform a read: log it and hand its Go result pair to the caller. *)
Definition perform {A : Type} (c : call) (answer : result A) : M (result A) :=
  ([c], Ok answer).

(** [if err != nil { return nil, fmt.Errorf(prefix + "%w", err) }] *)
Definition orReturn {A : Type} (r : result A) (prefix : string) : M A :=
  match r with
  | Ok a => ret a
  | Err err => fail (Errorf_w prefix err)
  end.

(** ** [getStats] (main.go, lines 127-197) *)

(** One iteration of the loop over [procs]: each failed read is a
    [continue], which leaves [processInfo] as it was. *)
Definition sampleProcess (proc : Process) (processInfo : list ProcessInfo)
  : M (list ProcessInfo) :=
  do r <- perform (CallName (Pid proc)) (Name proc);
  match r with
  | Err _ => ret processInfo
  | Ok name =>
    do r <- perform (CallProcCPUPercent (Pid proc)) (CPUPercent proc);
    match r with
    | Err _ => ret processInfo
    | Ok cpuPercent =>
      do r <- perform (CallMemoryInfo (Pid proc)) (MemoryInfo proc);
      match r with
      | Err _ => ret processInfo
      | Ok memInfo =>
        ret (processInfo ++
             [ {| PID := Pid proc;
                  PName := name;
                  PCPUPercent := cpuPercent;
                  MemoryUsage := div_MiB (float32_of_uint64 (RSS memInfo)) |} ])
      end
    end
  end.

(** [for _, proc := range procs { ... }] *)
Fixpoint sampleProcesses (procs : list Process) (processInfo : list ProcessInfo)
  : M (list ProcessInfo) :=
  match procs with
  | [] => ret processInfo
  | proc :: rest =>
    do processInfo' <- sampleProcess proc processInfo;
    sampleProcesses rest processInfo'
  end.

Definition getStats (src : MetricsSource) : M SystemStats :=
  (* Get CPU stats *)
  do r <- perform CallCPUPercent (cpu_Percent src);
  do cpuPercentages <- orReturn r "error getting CPU stats: ";
  match cpuPercentages with
  | [] => fail (Errorf "no CPU statistics available")
  | cpu0 :: _ =>
    (* Get memory stats *)
    do r <- perform CallVirtualMemory (mem_VirtualMemory src);
    do memStats <- orReturn r "error getting memory stats: ";
    (* Get disk stats *)
    do r <- perform (CallDiskUsage "/") (disk_Usage src "/");
    do diskStats <- orReturn r "error getting disk stats: ";
    (* Get network stats *)
    do r <- perform CallIOCounters (net_IOCounters src);
    do netStats <- orReturn r "error getting network stats: ";
    match netStats with
    | [] => fail (Errorf "no network statistics available")
    | net0 :: _ =>
      (* Get process stats *)
      do r <- perform CallProcesses (process_Processes src);
      do procs <- orReturn r "error getting process list: ";
      do processInfo <- sampleProcesses procs [];
      ret {| CPUUsage := cpu0;
             MemUsage := mem_UsedPercent memStats;
             DiskUsage := disk_UsedPercent diskStats;
             NetTraffic :=
               int64_of_uint64 (wrap_uint64 (BytesRecv net0 + BytesSent net0));
             Processes := processInfo |}
    end
  end.

(** ** [encoding/json], as far as the two structs use it

    The encoder's output is kept as a JSON value, not as text: object keys
    come from the struct tags, in field order.  A float that is NaN or
    infinite makes the encoder fail without writing anything. *)

Inductive JSON : Type :=
| JInt (z : Z)
| JFloat (bitSize : Z) (f : float)
| JString (s : string)
| JArray (items : list JSON)
| JObject (fields : list (string * JSON)).

Definition encodeFloat (bitSize : Z) (f : float) : option JSON :=
  if PrimFloat.is_nan f || PrimFloat.is_infinity f then None
  else Some (JFloat bitSize f).

Definition marshalProcessInfo (p : ProcessInfo) : option JSON :=
  cpuPercent ← encodeFloat 64 (PCPUPercent p);
  memoryUsage ← encodeFloat 32 (MemoryUsage p);
  Some (JObject [ ("pid", JInt (PID p));
                  ("name", JString (PName p));
                  ("cpuPercent", cpuPercent);
                  ("memoryUsage", memoryUsage) ]).

Definition marshalSystemStats (stats : SystemStats) : option JSON :=
  cpuUsage ← encodeFloat 64 (CPUUsage stats);
  memUsage ← encodeFloat 64 (MemUsage stats);
  diskUsage ← encodeFloat 64 (DiskUsage stats);
  processes ← mapM marshalProcessInfo (Processes stats);
  Some (JObject [ ("cpuUsage", cpuUsage);
                  ("memUsage", memUsage);
                  ("diskUsage", diskUsage);
                  ("netTraffic", JInt (NetTraffic stats));
                  ("processes", JArray processes) ]).

(** ** [net/http], as far as the handlers use it *)

Record Request : Type := {
  Method : string;
  URL_Path : string
}.

(** What a handler sends down the connection. [Encoded v] is the JSON text
    of [v] followed by the line feed [Encoder.Encode] appends. *)
Inductive chunk : Type :=
| Text (s : string)
| Encoded (v : JSON)
| Flushed.

Record ResponseWriter : Type := {
  Header : gmap string (list string);
  Status : option Z;          (* set by the first WriteHeader, Write or Flush *)
  Body : list chunk;
  IsFlusher : bool            (* does the writer implement http.Flusher *)
}.

(** The writer the server hands to a handler. *)
Definition newResponse : ResponseWriter :=
  {| Header := ∅; Status := None; Body := []; IsFlusher := true |}.

(** [w.Header().Set(key, value)]; the keys used here are in canonical form. *)
Definition Header_Set (key value : string) (w : ResponseWriter) : ResponseWriter :=
  {| Header := <[key := [value]]> (Header w);
     Status := Status w; Body := Body w; IsFlusher := IsFlusher w |}.

Definition Header_Del (key : string) (w : ResponseWriter) : ResponseWriter :=
  {| Header := delete key (Header w);
     Status := Status w; Body := Body w; IsFlusher := IsFlusher w |}.

(** Only the first status line counts. *)
Definition WriteHeader (code : Z) (w : ResponseWriter) : ResponseWriter :=
  match Status w with
  | Some _ => w
  | None =>
    {| Header := Header w; Status := Some code;
       Body := Body w; IsFlusher := IsFlusher w |}
  end.

Definition Write (c : chunk) (w : ResponseWriter) : ResponseWriter :=
  let w := WriteHeader 200 w in
  {| Header := Header w; Status := Status w;
     Body := Body w ++ [c]; IsFlusher := IsFlusher w |}.

Definition Fprintf (s : string) (w : ResponseWriter) : ResponseWriter :=
  Write (Text s) w.

(** [json.NewEncoder(w).Encode(v)]: nothing is written when encoding fails. *)
Definition Encode (v : option JSON) (w : ResponseWriter) : ResponseWriter :=
  match v with
  | Some j => Write (Encoded j) w
  | None => w
  end.

(** [http.Error(w, error, code)] *)
Definition http_Error (msg : string) (code : Z) (w : ResponseWriter) : ResponseWriter :=
  let w := Header_Del "Content-Length" w in
  let w := Header_Set "Content-Type" "text/plain; charset=utf-8" w in
  let w := Header_Set "X-Content-Type-Options" "nosniff" w in
  let w := WriteHeader code w in
  Fprintf (msg +:+ nl) w.

Definition StatusOK : Z := 200.
Definition StatusNotFound : Z := 404.
Definition StatusMethodNotAllowed : Z := 405.
Definition StatusInternalServerError : Z := 500.
Definition MethodGet : string := "GET".

Definition http_NotFound (w : ResponseWriter) : ResponseWriter :=
  http_Error "404 page not found" StatusNotFound w.

(** ** [statsHandler] (main.go, lines 207-223)

    [src] is the host at the time of the request.  The line logged when
    encoding fails goes to the process log and is not part of the response. *)
Definition statsHandler (src : MetricsSource) (w : ResponseWriter) (r : Request)
  : ResponseWriter :=
  if negb (String.eqb (Method r) MethodGet) then
    http_Error "Method not allowed" StatusMethodNotAllowed w
  else
    match snd (getStats src) with
    | Err err => http_Error (Error err) StatusInternalServerError w
    | Ok stats =>
      let w := Header_Set "Content-Type" "application/json" w in
      Encode (marshalSystemStats stats) w
    end.

(** The handler of the pattern ["/"] (main.go, lines 67-85); a map is
    encoded with its keys sorted. *)
Definition rootHandler (w : ResponseWriter) (r : Request) : ResponseWriter :=
  if negb (String.eqb (URL_Path r) "/") then http_NotFound w
  else
    let info :=
      JObject [ ("description", JString "API for monitoring system resources and processes");
                ("endpoints",
                 JObject [ ("/api/events", JString "SSE endpoint for real-time system statistics");
                           ("/api/stats", JString "Get current system statistics") ]);
                ("name", JString "System Stats API");
                ("version", JString "1.0") ] in
    let w := Header_Set "Content-Type" "application/json" w in
    Encode (Some info) w.

(** ** [sseHandler] (main.go, lines 233-264)

    The handler is a loop around a [select] with two cases.  One run of the
    handler is driven by the list of decisions its [select] statements
    take: which of the two communications could proceed, which case was
    run, and the host at that moment. *)

Inductive phase : Type := Open | Streaming | Closed.

Record session : Type := {
  state : phase;
  conn : ResponseWriter;
  tickerRunning : bool;   (* created by time.NewTicker, released by Stop *)
  panicked : bool
}.

Inductive branch : Type :=
| CaseDone    (* case <-r.Context().Done() *)
| CaseTick.   (* case <-ticker.C *)

Record ready : Type := { doneReady : bool; tickReady : bool }.

Record decision : Type := {
  pending : ready;
  chosen : branch;
  host : MetricsSource
}.

(** Go's [select] runs a case whose communication can proceed; when both
    can, either may be run. *)
Definition can_proceed (p : ready) (b : branch) : bool :=
  match b with
  | CaseDone => doneReady p
  | CaseTick => tickReady p
  end.

Definition select_ok (d : decision) : bool := can_proceed (pending d) (chosen d).

Definition both_pending (d : decision) : bool :=
  doneReady (pending d) && tickReady (pending d).

Definition openSession (w : ResponseWriter) : session :=
  {| state := Open; conn := w; tickerRunning := false; panicked := false |}.

(** Lines 234-244: headers, encoder, ticker. *)
Definition sseSetup (s : session) (r : Request) : session :=
  let w := conn s in
  let w := Header_Set "Content-Type" "text/event-stream" w in
  let w := Header_Set "Cache-Control" "no-cache" w in
  let w := Header_Set "Connection" "keep-alive" w in
  let w := Header_Set "Access-Control-Allow-Origin" "*" w in
  {| state := Streaming; conn := w; tickerRunning := true; panicked := panicked s |}.

(** Leaving the handler, by [return] or by a panic, runs the deferred
    [ticker.Stop()]. *)
Definition leave (byPanic : bool) (w : ResponseWriter) : session :=
  {| state := Closed; conn := w; tickerRunning := false; panicked := byPanic |}.

(** [w.(http.Flusher).Flush()]: the type assertion panics on a writer that
    is no Flusher. *)
Definition Flush (w : ResponseWriter) : option ResponseWriter :=
  if IsFlusher w then Some (Write Flushed w) else None.

Definition flushAndContinue (w : ResponseWriter) (s : session) : session :=
  match Flush w with
  | Some w' =>
    {| state := Streaming; conn := w';
       tickerRunning := tickerRunning s; panicked := panicked s |}
  | None => leave true w
  end.

Definition errorEvent (err : error) : string :=
  "event: error" +:+ nl +:+ "data: " +:+ Error err +:+ nl +:+ nl.

Definition statsEventHead : string := "event: stats" +:+ nl +:+ "data: ".

(** The body of [case <-ticker.C]. *)
Definition onTick (src : MetricsSource) (s : session) : session :=
  match snd (getStats src) with
  | Err err =>
    let w := Fprintf (errorEvent err) (conn s) in
    flushAndContinue w s
  | Ok stats =>
    let w := Fprintf statsEventHead (conn s) in
    let w := Encode (marshalSystemStats stats) w in
    let w := Fprintf (nl +:+ nl) w in
    flushAndContinue w s
  end.

(** One iteration of the [for { select { ... } }] loop. A handler that has
    returned runs no code. *)
Definition sseStep (s : session) (d : decision) : session :=
  match state s with
  | Streaming =>
    match chosen d with
    | CaseDone => leave false (conn s)
    | CaseTick => onTick (host d) s
    end
  | Open | Closed => s
  end.

Definition sseRun (s : session) (schedule : list decision) : session :=
  fold_left sseStep schedule s.

Definition sseHandler (w : ResponseWriter) (r : Request) (schedule : list decision)
  : session :=
  sseRun (sseSetup (openSession w) r) schedule.

(** ** The server (main.go, lines 46-124 and 266-274) *)

Inductive handler : Type := HandleRoot | HandleStats | HandleEvents.

Record Server : Type := {
  router : list (string * handler);
  port : string
}.

Definition NewServer (port : string) : Server :=
  let port := if String.eqb port "" then defaultPort else port in
  {| router := []; port := port |}.

Definition HandleFunc (pattern : string) (h : handler) (s : Server) : Server :=
  {| router := router s ++ [(pattern, h)]; port := port s |}.

Definition setupRoutes (s : Server) : Server :=
  let s := HandleFunc "/" HandleRoot s in
  let s := HandleFunc (apiPrefix +:+ "/stats") HandleStats s in
  HandleFunc (apiPrefix +:+ "/events") HandleEvents s.

(** [ServeMux]: a pattern is matched by the same path; a pattern ending in
    a slash is matched by every path it is a prefix of; an exact match wins.
    (The mux's redirections of unclean paths are left out.) *)
Definition isSubtree (pattern : string) : bool :=
  String.eqb (substring (String.length pattern - 1) 1 pattern) "/".

Definition mux_Handler (routes : list (string * handler)) (path : string)
  : option handler :=
  match find (fun ph => String.eqb (fst ph) path) routes with
  | Some ph => Some (snd ph)
  | None =>
    snd <$> find (fun ph => isSubtree (fst ph) && String.prefix (fst ph) path) routes
  end.

Inductive served : Type :=
| Replied (w : ResponseWriter)
| Streamed (s : session).

Definition ServeHTTP (s : Server) (src : MetricsSource) (schedule : list decision)
    (r : Request) : served :=
  match mux_Handler (router s) (URL_Path r) with
  | Some HandleRoot => Replied (rootHandler newResponse r)
  | Some HandleStats => Replied (statsHandler src newResponse r)
  | Some HandleEvents => Streamed (sseHandler newResponse r schedule)
  | None => Replied (http_NotFound newResponse)
  end.

(** The [http.Server] value [Start] builds; durations in seconds. *)
Record httpServer : Type := {
  Addr : string;
  ReadTimeout : Z;
  WriteTimeout : Z;
  IdleTimeout : Z
}.

Definition Start_server (s : Server) : httpServer :=
  {| Addr := ":" +:+ port s; ReadTimeout := 15; WriteTimeout := 15; IdleTimeout := 60 |}.

(** What ends the [select] of [Start]: a signal, after which [Shutdown]
    gives its own result, or the listener's error. *)
Inductive startEvent : Type :=
| StopSignal (shutdownResult : option error)
| ServeError (err : error).

Definition Start (s : Server) (ev : startEvent) : option error :=
  match ev with
  | StopSignal shutdownResult => shutdownResult
  | ServeError err => Some (Errorf_w "server error: " err)
  end.

(** [os.Getenv]: the empty string for a variable that is not set. *)
Definition os_Getenv (env : gmap string string) (key : string) : string :=
  default "" (env !! key).

(** [main], up to the call of [Start]. *)
Definition main_server (env : gmap string string) : Server :=
  let server := NewServer (os_Getenv env "PORT") in
  setupRoutes server.

(** [main] (main.go, lines 266-274): [log.Fatal] prints the error and ends
    the process with a failure status. *)
Inductive exit : Type :=
| Returned
| Fatal (logged : string).

Definition main (env : gmap string string) (ev : startEvent) : exit :=
  let server := main_server env in
  match Start server ev with
  | Some err => Fatal (Error err)
  | None => Returned
  end.

(** * Vocabulary of the statements *)

(** The errors with which [getStats] reports that a core metric could not
    be had: one per failing read, and one each for an empty CPU or network
    answer. *)
Inductive MetricsUnavailable : error -> Prop :=
| MU_cpu cause : MetricsUnavailable (Errorf_w "error getting CPU stats: " cause)
| MU_cpu_empty : MetricsUnavailable (Errorf "no CPU statistics available")
| MU_mem cause : MetricsUnavailable (Errorf_w "error getting memory stats: " cause)
| MU_disk cause : MetricsUnavailable (Errorf_w "error getting disk stats: " cause)
| MU_net cause : MetricsUnavailable (Errorf_w "error getting network stats: " cause)
| MU_net_empty : MetricsUnavailable (Errorf "no network statistics available").

(** [carries e cause]: [cause] can be unwrapped from [e], and the text of
    [e] ends with the text of [cause]. *)
Definition carries (e cause : error) : Prop :=
  Unwrap e = Some cause /\ exists prefix, Error e = prefix +:+ Error cause.

(** One of the four core reads answers an error, or the CPU read answers an
    empty list. *)
Definition core_failure (src : MetricsSource) : Prop :=
  (exists cause, cpu_Percent src = Err cause) \/
  cpu_Percent src = Ok [] \/
  (exists cause, mem_VirtualMemory src = Err cause) \/
  (exists cause, disk_Usage src "/" = Err cause) \/
  (exists cause, net_IOCounters src = Err cause).

(** [cause] is the error that one of the four core reads answers. *)
Definition core_cause (src : MetricsSource) (cause : error) : Prop :=
  cpu_Percent src = Err cause \/
  mem_VirtualMemory src = Err cause \/
  disk_Usage src "/" = Err cause \/
  net_IOCounters src = Err cause.




(** The reads attempted on one process: name, then CPU percent, then
    memory, up to and including the first that fails. *)
Definition attempts (proc : Process) : list call :=
  CallName (Pid proc) ::
  match Name proc with
  | Err _ => []
  | Ok _ =>
    CallProcCPUPercent (Pid proc) ::
    match CPUPercent proc with
    | Err _ => []
    | Ok _ => [CallMemoryInfo (Pid proc)]
    end
  end.


(** The entry a process contributes, if any. *)
Definition sample (proc : Process) : option ProcessInfo :=
  match Name proc, CPUPercent proc, MemoryInfo proc with
  | Ok name, Ok cpuPercent, Ok memInfo =>
    Some {| PID := Pid proc; PName := name; PCPUPercent := cpuPercent;
            MemoryUsage := div_MiB (float32_of_uint64 (RSS memInfo)) |}
  | _, _, _ => None
  end.

Definition coreCalls : list call :=
  [CallCPUPercent; CallVirtualMemory; CallDiskUsage "/"; CallIOCounters; CallProcesses].

(** [s] contains [sub]. *)
Definition contains (s sub : string) : Prop :=
  exists before after, s = before +:+ sub +:+ after.

(** Every run of [getStats] is one of the eight above. *)
Inductive getStats_case (src : MetricsSource) : list call -> result SystemStats -> Prop :=
| case_cpu_err e :
    cpu_Percent src = Err e ->
    getStats_case src [CallCPUPercent] (Err (Errorf_w "error getting CPU stats: " e))
| case_cpu_empty :
    cpu_Percent src = Ok [] ->
    getStats_case src [CallCPUPercent] (Err (Errorf "no CPU statistics available"))
| case_mem_err cpu0 cpus e :
    cpu_Percent src = Ok (cpu0 :: cpus) ->
    mem_VirtualMemory src = Err e ->
    getStats_case src [CallCPUPercent; CallVirtualMemory]
                  (Err (Errorf_w "error getting memory stats: " e))
| case_disk_err cpu0 cpus memStats e :
    cpu_Percent src = Ok (cpu0 :: cpus) ->
    mem_VirtualMemory src = Ok memStats ->
    disk_Usage src "/" = Err e ->
    getStats_case src [CallCPUPercent; CallVirtualMemory; CallDiskUsage "/"]
                  (Err (Errorf_w "error getting disk stats: " e))
| case_net_err cpu0 cpus memStats diskStats e :
    cpu_Percent src = Ok (cpu0 :: cpus) ->
    mem_VirtualMemory src = Ok memStats ->
    disk_Usage src "/" = Ok diskStats ->
    net_IOCounters src = Err e ->
    getStats_case src [CallCPUPercent; CallVirtualMemory; CallDiskUsage "/"; CallIOCounters]
                  (Err (Errorf_w "error getting network stats: " e))
| case_net_empty cpu0 cpus memStats diskStats :
    cpu_Percent src = Ok (cpu0 :: cpus) ->
    mem_VirtualMemory src = Ok memStats ->
    disk_Usage src "/" = Ok diskStats ->
    net_IOCounters src = Ok [] ->
    getStats_case src [CallCPUPercent; CallVirtualMemory; CallDiskUsage "/"; CallIOCounters]
                  (Err (Errorf "no network statistics available"))
| case_procs_err cpu0 cpus memStats diskStats net0 nets e :
    cpu_Percent src = Ok (cpu0 :: cpus) ->
    mem_VirtualMemory src = Ok memStats ->
    disk_Usage src "/" = Ok diskStats ->
    net_IOCounters src = Ok (net0 :: nets) ->
    process_Processes src = Err e ->
    getStats_case src coreCalls (Err (Errorf_w "error getting process list: " e))
| case_ok cpu0 cpus memStats diskStats net0 nets procs :
    cpu_Percent src = Ok (cpu0 :: cpus) ->
    mem_VirtualMemory src = Ok memStats ->
    disk_Usage src "/" = Ok diskStats ->
    net_IOCounters src = Ok (net0 :: nets) ->
    process_Processes src = Ok procs ->
    getStats_case src (coreCalls ++ flat_map attempts procs)
      (Ok {| CPUUsage := cpu0;
             MemUsage := mem_UsedPercent memStats;
             DiskUsage := disk_UsedPercent diskStats;
             NetTraffic := int64_of_uint64 (wrap_uint64 (BytesRecv net0 + BytesSent net0));
             Processes := omap sample procs |}).

(** Hosts, requests and decisions on which the statements are run. *)
Definition procX : Process :=
  {| Pid := 10; Name := Ok "x"; CPUPercent := Ok 1.0%float;
     MemoryInfo := Ok {| RSS := 2097152 |} |}.

Definition procNoName : Process :=
  {| Pid := 11; Name := Err (errorString "no such process");
     CPUPercent := Ok 0.5%float; MemoryInfo := Ok {| RSS := 4096 |} |}.

Definition procNoMemory : Process :=
  {| Pid := 12; Name := Ok "y"; CPUPercent := Ok 2.0%float;
     MemoryInfo := Err (errorString "permission denied") |}.

Definition procZ : Process :=
  {| Pid := 13; Name := Ok "z"; CPUPercent := Ok 3.0%float;
     MemoryInfo := Ok {| RSS := 123456789 |} |}.

Definition hostWith (disk : result UsageStat) (net : list IOCountersStat)
    (procs : list Process) : MetricsSource :=
  {| cpu_Percent := Ok [12.3%float];
     mem_VirtualMemory := Ok {| mem_UsedPercent := 55.0 |};
     disk_Usage := fun _ => disk;
     net_IOCounters := Ok net;
     process_Processes := Ok procs |}.

Definition goodHost : MetricsSource :=
  hostWith (Ok {| disk_UsedPercent := 80.0 |})
           [ {| BytesSent := 100; BytesRecv := 200 |} ] [procX].

Definition diskError : error := errorString "no such file or directory".

Definition diskDownHost : MetricsSource :=
  hostWith (Err diskError) [ {| BytesSent := 100; BytesRecv := 200 |} ] [procX].

Definition mixedHost : MetricsSource :=
  hostWith (Ok {| disk_UsedPercent := 80.0 |})
           [ {| BytesSent := 100; BytesRecv := 200 |} ]
           [procX; procNoName; procNoMemory; procZ].

Definition busyNetHost : MetricsSource :=
  hostWith (Ok {| disk_UsedPercent := 80.0 |})
           [ {| BytesSent := 2 ^ 63; BytesRecv := 0 |} ] [].

Definition mixedStats : SystemStats :=
  {| CPUUsage := 12.3%float; MemUsage := 55.0%float; DiskUsage := 80.0%float;
     NetTraffic := 300;
     Processes := omap sample [procX; procNoName; procNoMemory; procZ] |}.


(** What one tick writes on a connection that can be flushed. *)
Definition tickEvent (src : MetricsSource) : list chunk :=
  match snd (getStats src) with
  | Err err => [Text (errorEvent err); Flushed]
  | Ok stats =>
    [Text statsEventHead] ++
    from_option (fun j => [Encoded j]) [] (marshalSystemStats stats) ++
    [Text (nl +:+ nl); Flushed]
  end.

(** The ticker runs exactly while the handler is in its loop. *)
Definition ticker_ok (s : session) : Prop :=
  match state s with
  | Open | Closed => tickerRunning s = false
  | Streaming => tickerRunning s = true
  end.

Definition tickOn (src : MetricsSource) : decision :=
  {| pending := {| doneReady := false; tickReady := true |};
     chosen := CaseTick; host := src |}.

Definition raceTick (src : MetricsSource) : decision :=
  {| pending := {| doneReady := true; tickReady := true |};
     chosen := CaseTick; host := src |}.

Definition cancelAt (src : MetricsSource) : decision :=
  {| pending := {| doneReady := true; tickReady := false |};
     chosen := CaseDone; host := src |}.

Definition goodStats : SystemStats :=
  {| CPUUsage := 12.3%float; MemUsage := 55.0%float; DiskUsage := 80.0%float;
     NetTraffic := 300;
     Processes := [ {| PID := 10; PName := "x"; PCPUPercent := 1.0%float;
                       MemoryUsage := 2.0%float |} ] |}.

Definition getEvents : Request := {| Method := "GET"; URL_Path := "/api/events" |}.

(** C7 as the specification words it: at a decision where the tick and the
    cancellation are both pending, nothing is written from then on. *)
Definition cancellation_has_priority : Prop :=
  forall r pre d post,
    Forall (fun d => select_ok d = true) (pre ++ d :: post) ->
    state (sseHandler newResponse r pre) = Streaming ->
    both_pending d = true ->
    Body (conn (sseHandler newResponse r (pre ++ d :: post))) =
    Body (conn (sseHandler newResponse r pre)).

Definition getStatsRequest : Request := {| Method := "GET"; URL_Path := "/api/stats" |}.

(** A float the JSON encoder accepts. *)
Definition finite (f : float) : bool :=
  negb (PrimFloat.is_nan f || PrimFloat.is_infinity f).

Definition encodable (p : ProcessInfo) : Prop :=
  finite (PCPUPercent p) = true /\ finite (MemoryUsage p) = true.

(** The JSON object of one process entry. *)
Definition processObject (p : ProcessInfo) : JSON :=
  JObject [ ("pid", JInt (PID p));
            ("name", JString (PName p));
            ("cpuPercent", JFloat 64 (PCPUPercent p));
            ("memoryUsage", JFloat 32 (MemoryUsage p)) ].

(** The decisions of a schedule up to the first that runs the cancellation
    case. *)
Fixpoint ticksBeforeCancel (schedule : list decision) : list decision :=
  match schedule with
  | [] => []
  | d :: rest =>
    match chosen d with
    | CaseTick => d :: ticksBeforeCancel rest
    | CaseDone => []
    end
  end.

Definition isTick (d : decision) : bool :=
  match chosen d with CaseTick => true | CaseDone => false end.

(** The keys of a JSON object, and one of its fields. *)
Definition objectKeys (j : JSON) : list string :=
  match j with
  | JObject fields => fst <$> fields
  | _ => []
  end.

Definition objectField (key : string) (j : JSON) : option JSON :=
  match j with
  | JObject fields => snd <$> find (fun kv => String.eqb (fst kv) key) fields
  | _ => None
  end.

(** A host whose CPU figure is not a number. *)
Definition nanHost : MetricsSource :=
  {| cpu_Percent := Ok [PrimFloat.nan];
     mem_VirtualMemory := Ok {| mem_UsedPercent := 55.0 |};
     disk_Usage := fun _ => Ok {| disk_UsedPercent := 80.0 |};
     net_IOCounters := Ok [ {| BytesSent := 100; BytesRecv := 200 |} ];
     process_Processes := Ok [procX] |}.

(** A host whose process list cannot be read. *)
Definition noProcessListHost : MetricsSource :=
  {| cpu_Percent := Ok [12.3%float];
     mem_VirtualMemory := Ok {| mem_UsedPercent := 55.0 |};
     disk_Usage := fun _ => Ok {| disk_UsedPercent := 80.0 |};
     net_IOCounters := Ok [ {| BytesSent := 100; BytesRecv := 200 |} ];
     process_Processes := Err (errorString "open /proc: permission denied") |}.

(** The good host, with another filesystem that cannot be read. *)
Definition otherDiskDownHost : MetricsSource :=
  {| cpu_Percent := Ok [12.3%float];
     mem_VirtualMemory := Ok {| mem_UsedPercent := 55.0 |};
     disk_Usage := fun path =>
       if String.eqb path "/" then Ok {| disk_UsedPercent := 80.0 |}
       else Err (errorString "no such file or directory");
     net_IOCounters := Ok [ {| BytesSent := 100; BytesRecv := 200 |} ];
     process_Processes := Ok [procX] |}.

(** A writer that is no [http.Flusher]. *)
Definition plainWriter : ResponseWriter :=
  {| Header := ∅; Status := None; Body := []; IsFlusher := false |}.

(** Nothing has been sent on the connection, or a status 200 has and the
    last thing done was a flush. *)
Definition silentOrFlushed (w : ResponseWriter) : Prop :=
  (Status w = None /\ Body w = []) \/
  (Status w = Some StatusOK /\ last (Body w) = Some Flushed).

(** * Properties *)

(** ** The process loop *)

Lemma sampleProcess_eq proc acc :
  sampleProcess proc acc =
  (attempts proc, Ok (acc ++ from_option (fun i => [i]) [] (sample proc))).
Proof.
  unfold sampleProcess, attempts, sample.
  destruct (Name proc), (CPUPercent proc), (MemoryInfo proc);
    cbn; rewrite ?app_nil_r; reflexivity.
Qed.

Lemma sampleProcesses_eq procs : forall acc,
  sampleProcesses procs acc = (flat_map attempts procs, Ok (acc ++ omap sample procs)).
Proof.
  induction procs as [|proc rest IH]; intros acc; cbn [sampleProcesses].
  - cbn. by rewrite app_nil_r.
  - rewrite sampleProcess_eq. cbn [bind]. rewrite IH.
    cbn [flat_map omap list_omap]. f_equal. f_equal.
    rewrite <- app_assoc. f_equal.
    destruct (sample proc); reflexivity.
Qed.





(** ** [getStats], case by case *)

Ltac run_getStats :=
  unfold getStats;
  repeat match goal with
         | H : _ = _ |- _ => rewrite H
         end;
  cbn [bind perform orReturn ret fail app];
  try reflexivity.

Section GetStatsCases.
Variable src : MetricsSource.

Lemma getStats_cpu_err e :
  cpu_Percent src = Err e ->
  getStats src = ([CallCPUPercent], Err (Errorf_w "error getting CPU stats: " e)).
Proof. intros Hcpu. run_getStats. Qed.

Lemma getStats_cpu_empty :
  cpu_Percent src = Ok [] ->
  getStats src = ([CallCPUPercent], Err (Errorf "no CPU statistics available")).
Proof. intros Hcpu. run_getStats. Qed.

Variables (cpu0 : float) (cpus : list float).
Hypothesis Hcpu : cpu_Percent src = Ok (cpu0 :: cpus).

Lemma getStats_mem_err e :
  mem_VirtualMemory src = Err e ->
  getStats src = ([CallCPUPercent; CallVirtualMemory],
                  Err (Errorf_w "error getting memory stats: " e)).
Proof. intros Hmem. run_getStats. Qed.

Variable memStats : VirtualMemoryStat.
Hypothesis Hmem : mem_VirtualMemory src = Ok memStats.

Lemma getStats_disk_err e :
  disk_Usage src "/" = Err e ->
  getStats src = ([CallCPUPercent; CallVirtualMemory; CallDiskUsage "/"],
                  Err (Errorf_w "error getting disk stats: " e)).
Proof. intros Hdisk. run_getStats. Qed.

Variable diskStats : UsageStat.
Hypothesis Hdisk : disk_Usage src "/" = Ok diskStats.

Lemma getStats_net_err e :
  net_IOCounters src = Err e ->
  getStats src =
  ([CallCPUPercent; CallVirtualMemory; CallDiskUsage "/"; CallIOCounters],
   Err (Errorf_w "error getting network stats: " e)).
Proof. intros Hnet. run_getStats. Qed.

Lemma getStats_net_empty :
  net_IOCounters src = Ok [] ->
  getStats src =
  ([CallCPUPercent; CallVirtualMemory; CallDiskUsage "/"; CallIOCounters],
   Err (Errorf "no network statistics available")).
Proof. intros Hnet. run_getStats. Qed.

Variables (net0 : IOCountersStat) (nets : list IOCountersStat).
Hypothesis Hnet : net_IOCounters src = Ok (net0 :: nets).

Lemma getStats_procs_err e :
  process_Processes src = Err e ->
  getStats src = (coreCalls, Err (Errorf_w "error getting process list: " e)).
Proof. intros Hprocs. run_getStats. Qed.

Lemma getStats_ok procs :
  process_Processes src = Ok procs ->
  getStats src =
  (coreCalls ++ flat_map attempts procs,
   Ok {| CPUUsage := cpu0;
         MemUsage := mem_UsedPercent memStats;
         DiskUsage := disk_UsedPercent diskStats;
         NetTraffic := int64_of_uint64 (wrap_uint64 (BytesRecv net0 + BytesSent net0));
         Processes := omap sample procs |}).
Proof.
  intros Hprocs. run_getStats.
  rewrite sampleProcesses_eq. cbn [bind ret app]. rewrite app_nil_r. reflexivity.
Qed.
End GetStatsCases.

Lemma getStats_cases src : getStats_case src (fst (getStats src)) (snd (getStats src)).
Proof.
  destruct (cpu_Percent src) as [[|cpu0 cpus]|e] eqn:Hcpu.
  - rewrite getStats_cpu_empty by done. by constructor.
  - destruct (mem_VirtualMemory src) as [memStats|e] eqn:Hmem.
    + destruct (disk_Usage src "/") as [diskStats|e] eqn:Hdisk.
      * destruct (net_IOCounters src) as [[|net0 nets]|e] eqn:Hnet.
        -- erewrite getStats_net_empty by done. by econstructor.
        -- destruct (process_Processes src) as [procs|e] eqn:Hprocs.
           ++ erewrite getStats_ok by done. by econstructor.
           ++ erewrite getStats_procs_err by done. by econstructor.
        -- erewrite getStats_net_err by done. by econstructor.
      * erewrite getStats_disk_err by done. by econstructor.
    + erewrite getStats_mem_err by done. by econstructor.
  - rewrite getStats_cpu_err with (e := e) by done. by constructor.
Qed.

Lemma getStats_inv src tr res : getStats src = (tr, res) -> getStats_case src tr res.
Proof. intros H. pose proof (getStats_cases src) as Hc. by rewrite H in Hc. Qed.

Lemma carries_Errorf_w prefix cause : carries (Errorf_w prefix cause) cause.
Proof. split; [reflexivity | by exists prefix]. Qed.

(** ** The snapshot assembler *)

(** C1. Whenever the CPU, memory, disk or network read of the host answers
    an error, or the CPU read answers an empty list, [getStats] returns an
    error and no snapshot; the error is one of the metrics-unavailable
    errors, and it carries the error of one of these reads (it unwraps to it
    and its text ends with its text), or is the error saying that no CPU
    figure is available.  Read by read: the error carries the cause of the
    first read, in the order CPU, memory, disk, network, that fails. *)
Theorem getStats_core_failure (src : MetricsSource) :
  (core_failure src ->
   exists e,
     snd (getStats src) = Err e /\ MetricsUnavailable e /\
     ((exists cause, core_cause src cause /\ carries e cause) \/
      (cpu_Percent src = Ok [] /\ e = Errorf "no CPU statistics available"))) /\
  (forall cause,
     cpu_Percent src = Err cause ->
     snd (getStats src) = Err (Errorf_w "error getting CPU stats: " cause)) /\
  (cpu_Percent src = Ok [] ->
   snd (getStats src) = Err (Errorf "no CPU statistics available")) /\
  (forall cpu0 cpus cause,
     cpu_Percent src = Ok (cpu0 :: cpus) ->
     mem_VirtualMemory src = Err cause ->
     snd (getStats src) = Err (Errorf_w "error getting memory stats: " cause)) /\
  (forall cpu0 cpus memStats cause,
     cpu_Percent src = Ok (cpu0 :: cpus) ->
     mem_VirtualMemory src = Ok memStats ->
     disk_Usage src "/" = Err cause ->
     snd (getStats src) = Err (Errorf_w "error getting disk stats: " cause)) /\
  (forall cpu0 cpus memStats diskStats cause,
     cpu_Percent src = Ok (cpu0 :: cpus) ->
     mem_VirtualMemory src = Ok memStats ->
     disk_Usage src "/" = Ok diskStats ->
     net_IOCounters src = Err cause ->
     snd (getStats src) = Err (Errorf_w "error getting network stats: " cause)).
Proof.
  split; [|repeat split].
  - intros Hfail.
    destruct (cpu_Percent src) as [[|cpu0 cpus]|e] eqn:Hcpu.
    + rewrite (getStats_cpu_empty src Hcpu).
      eexists. split; [reflexivity|]. split; [constructor|]. by right.
    + destruct (mem_VirtualMemory src) as [memStats|e] eqn:Hmem.
      * destruct (disk_Usage src "/") as [diskStats|e] eqn:Hdisk.
        -- destruct (net_IOCounters src) as [nets|e] eqn:Hnet.
           ++ exfalso.
              destruct Hfail as [[? H]|[H|[[? H]|[[? H]|[? H]]]]]; congruence.
           ++ rewrite (getStats_net_err src _ _ Hcpu _ Hmem _ Hdisk _ Hnet).
              eexists. split; [reflexivity|]. split; [constructor|].
              left. exists e. split; [|apply carries_Errorf_w].
              unfold core_cause. rewrite Hnet. auto.
        -- rewrite (getStats_disk_err src _ _ Hcpu _ Hmem _ Hdisk).
           eexists. split; [reflexivity|]. split; [constructor|].
           left. exists e. split; [|apply carries_Errorf_w].
           unfold core_cause. rewrite Hdisk. auto.
      * rewrite (getStats_mem_err src _ _ Hcpu _ Hmem).
        eexists. split; [reflexivity|]. split; [constructor|].
        left. exists e. split; [|apply carries_Errorf_w].
        unfold core_cause. rewrite Hmem. auto.
    + rewrite (getStats_cpu_err src _ Hcpu).
      eexists. split; [reflexivity|]. split; [constructor|].
      left. exists e. split; [|apply carries_Errorf_w].
      unfold core_cause. rewrite Hcpu. auto.
  - intros cause Hcpu. by rewrite (getStats_cpu_err src _ Hcpu).
  - intros Hcpu. by rewrite (getStats_cpu_empty src Hcpu).
  - intros cpu0 cpus cause Hcpu Hmem.
    by rewrite (getStats_mem_err src _ _ Hcpu _ Hmem).
  - intros cpu0 cpus memStats cause Hcpu Hmem Hdisk.
    by rewrite (getStats_disk_err src _ _ Hcpu _ Hmem _ Hdisk).
  - intros cpu0 cpus memStats diskStats cause Hcpu Hmem Hdisk Hnet.
    by rewrite (getStats_net_err src _ _ Hcpu _ Hmem _ Hdisk _ Hnet).
Qed.

Lemma getStats_core_failure_witness :
  core_failure diskDownHost /\
  snd (getStats diskDownHost) = Err (Errorf_w "error getting disk stats: " diskError) /\
  exists e, snd (getStats diskDownHost) = Err e /\ MetricsUnavailable e.
Proof.
  assert (core_failure diskDownHost) as Hfail
    by (right; right; right; left; by exists diskError).
  split; [exact Hfail|].
  destruct (getStats_core_failure diskDownHost) as (Hany & _ & _ & _ & Hdisk & _).
  split.
  - exact (Hdisk _ _ _ diskError eq_refl eq_refl eq_refl).
  - destruct (Hany Hfail) as (e & He & Hmu & _). by exists e.
Defined.







(** ** Writing to the connection *)

Lemma Write_fields c w :
  Header (Write c w) = Header w /\
  Body (Write c w) = Body w ++ [c] /\
  IsFlusher (Write c w) = IsFlusher w /\
  Status (Write c w) = Some (default 200 (Status w)).
Proof.
  unfold Write, WriteHeader.
  destruct (Status w) eqn:Hst; cbn; rewrite ?Hst; done.
Qed.

Lemma Encode_fields v w :
  Header (Encode v w) = Header w /\
  Body (Encode v w) = Body w ++ from_option (fun j => [Encoded j]) [] v /\
  IsFlusher (Encode v w) = IsFlusher w.
Proof.
  destruct v as [j|]; cbn [Encode from_option].
  - destruct (Write_fields (Encoded j) w) as (? & ? & ? & _). done.
  - by rewrite app_nil_r.
Qed.

Lemma flushAndContinue_flusher w s :
  IsFlusher w = true ->
  let s' := flushAndContinue w s in
  state s' = Streaming /\
  Header (conn s') = Header w /\
  Body (conn s') = Body w ++ [Flushed] /\
  IsFlusher (conn s') = true /\
  tickerRunning s' = tickerRunning s /\
  panicked s' = panicked s.
Proof.
  intros Hfl. unfold flushAndContinue, Flush. rewrite Hfl.
  cbn [state conn tickerRunning panicked].
  destruct (Write_fields Flushed w) as (? & ? & ? & _). repeat split; congruence.
Qed.

Lemma flushAndContinue_no_flusher w s :
  IsFlusher w = false -> flushAndContinue w s = leave true w.
Proof. intros Hfl. unfold flushAndContinue, Flush. by rewrite Hfl. Qed.

Lemma onTick_flusher src s :
  IsFlusher (conn s) = true ->
  let s' := onTick src s in
  state s' = Streaming /\
  Header (conn s') = Header (conn s) /\
  Body (conn s') = Body (conn s) ++ tickEvent src /\
  IsFlusher (conn s') = true /\
  tickerRunning s' = tickerRunning s /\
  panicked s' = panicked s.
Proof.
  intros Hfl. unfold onTick, tickEvent, Fprintf.
  destruct (snd (getStats src)) as [stats|err].
  - set (w1 := Write (Text statsEventHead) (conn s)).
    set (w2 := Encode (marshalSystemStats stats) w1).
    set (w3 := Write (Text (nl +:+ nl)) w2).
    destruct (Write_fields (Text statsEventHead) (conn s)) as (H1 & B1 & F1 & _).
    destruct (Encode_fields (marshalSystemStats stats) w1) as (H2 & B2 & F2).
    destruct (Write_fields (Text (nl +:+ nl)) w2) as (H3 & B3 & F3 & _).
    fold w1 in H1, B1, F1. fold w2 in H2, B2, F2, H3, B3, F3. fold w3 in H3, B3, F3.
    assert (IsFlusher w3 = true) as Hfl3 by congruence.
    destruct (flushAndContinue_flusher w3 s Hfl3) as (? & H4 & B4 & ? & ? & ?).
    repeat split; try done.
    + congruence.
    + rewrite B4, B3, B2, B1. by rewrite <- !app_assoc.
  - set (w1 := Write (Text (errorEvent err)) (conn s)).
    destruct (Write_fields (Text (errorEvent err)) (conn s)) as (H1 & B1 & F1 & _).
    fold w1 in H1, B1, F1.
    assert (IsFlusher w1 = true) as Hfl1 by congruence.
    destruct (flushAndContinue_flusher w1 s Hfl1) as (? & H4 & B4 & ? & ? & ?).
    repeat split; try done.
    + congruence.
    + rewrite B4, B1. by rewrite <- !app_assoc.
Qed.

Lemma onTick_no_flusher src s :
  IsFlusher (conn s) = false ->
  state (onTick src s) = Closed /\
  tickerRunning (onTick src s) = false /\
  panicked (onTick src s) = true.
Proof.
  intros Hfl. unfold onTick, Fprintf.
  destruct (snd (getStats src)) as [stats|err].
  - rewrite flushAndContinue_no_flusher; [done|].
    destruct (Write_fields (Text (nl +:+ nl))
                (Encode (marshalSystemStats stats) (Write (Text statsEventHead) (conn s))))
      as (_ & _ & -> & _).
    destruct (Encode_fields (marshalSystemStats stats) (Write (Text statsEventHead) (conn s)))
      as (_ & _ & ->).
    by destruct (Write_fields (Text statsEventHead) (conn s)) as (_ & _ & -> & _).
  - rewrite flushAndContinue_no_flusher; [done|].
    by destruct (Write_fields (Text (errorEvent err)) (conn s)) as (_ & _ & -> & _).
Qed.

(** ** Runs of the streaming handler *)

Lemma sseRun_cons s d rest : sseRun s (d :: rest) = sseRun (sseStep s d) rest.
Proof. reflexivity. Qed.

Lemma sseRun_app s l1 l2 : sseRun s (l1 ++ l2) = sseRun (sseRun s l1) l2.
Proof. apply fold_left_app. Qed.

Lemma sseRun_closed s schedule : state s = Closed -> sseRun s schedule = s.
Proof.
  intros Hc. induction schedule as [|d rest IH]; [done|].
  rewrite sseRun_cons. unfold sseStep. rewrite Hc. exact IH.
Qed.

Lemma sseStep_ticker_ok s d : ticker_ok s -> ticker_ok (sseStep s d).
Proof.
  unfold sseStep, ticker_ok. destruct (state s) eqn:Hst; try (by rewrite Hst).
  intros Hrun. destruct (chosen d); [done|].
  destruct (IsFlusher (conn s)) eqn:Hfl.
  - destruct (onTick_flusher (host d) s Hfl) as (-> & _ & _ & _ & -> & _). done.
  - destruct (onTick_no_flusher (host d) s Hfl) as (-> & -> & _). done.
Qed.

Lemma sseRun_ticker_ok schedule : forall s, ticker_ok s -> ticker_ok (sseRun s schedule).
Proof.
  induction schedule as [|d rest IH]; intros s Hs; [done|].
  rewrite sseRun_cons. apply IH. by apply sseStep_ticker_ok.
Qed.

Lemma sseSetup_ticker_ok w r : ticker_ok (sseSetup (openSession w) r).
Proof. done. Qed.

Lemma sseStep_not_open s d : state s <> Open -> state (sseStep s d) <> Open.
Proof.
  unfold sseStep. destruct (state s) eqn:Hst; try (by rewrite Hst).
  intros _. destruct (chosen d); [done|].
  destruct (IsFlusher (conn s)) eqn:Hfl.
  - by destruct (onTick_flusher (host d) s Hfl) as (-> & _).
  - by destruct (onTick_no_flusher (host d) s Hfl) as (-> & _).
Qed.

Lemma sseRun_not_open schedule : forall s, state s <> Open -> state (sseRun s schedule) <> Open.
Proof.
  induction schedule as [|d rest IH]; intros s Hs; [done|].
  rewrite sseRun_cons. apply IH. by apply sseStep_not_open.
Qed.

(** Headers are set once, before the loop. *)
Lemma sseStep_header s d : Header (conn (sseStep s d)) = Header (conn s).
Proof.
  unfold sseStep. destruct (state s); try done.
  destruct (chosen d); [done|].
  unfold onTick, flushAndContinue, Flush, Fprintf.
  destruct (snd (getStats (host d))) as [stats|err].
  - set (w1 := Write (Text statsEventHead) (conn s)).
    set (w2 := Encode (marshalSystemStats stats) w1).
    set (w3 := Write (Text (nl +:+ nl)) w2).
    destruct (Write_fields (Text statsEventHead) (conn s)) as (H1 & _).
    destruct (Encode_fields (marshalSystemStats stats) w1) as (H2 & _).
    destruct (Write_fields (Text (nl +:+ nl)) w2) as (H3 & _).
    destruct (Write_fields Flushed w3) as (H4 & _).
    fold w1 in H1. fold w2 in H2, H3. fold w3 in H3, H4.
    destruct (IsFlusher w3); cbn [conn leave]; congruence.
  - set (w1 := Write (Text (errorEvent err)) (conn s)).
    destruct (Write_fields (Text (errorEvent err)) (conn s)) as (H1 & _).
    destruct (Write_fields Flushed w1) as (H4 & _).
    fold w1 in H1, H4.
    destruct (IsFlusher w1); cbn [conn leave]; congruence.
Qed.

Lemma sseRun_header schedule : forall s, Header (conn (sseRun s schedule)) = Header (conn s).
Proof.
  induction schedule as [|d rest IH]; intros s; [done|].
  rewrite sseRun_cons, IH. apply sseStep_header.
Qed.

(** A session on a connection that can be flushed never panics. *)
Lemma sseStep_flusher s d :
  IsFlusher (conn s) = true -> panicked s = false ->
  IsFlusher (conn (sseStep s d)) = true /\ panicked (sseStep s d) = false.
Proof.
  intros Hfl Hp. unfold sseStep. destruct (state s); try done.
  destruct (chosen d); [done|].
  destruct (onTick_flusher (host d) s Hfl) as (_ & _ & _ & -> & _ & ->). done.
Qed.

Lemma sseRun_flusher schedule : forall s,
  IsFlusher (conn s) = true -> panicked s = false ->
  IsFlusher (conn (sseRun s schedule)) = true /\ panicked (sseRun s schedule) = false.
Proof.
  induction schedule as [|d rest IH]; intros s Hfl Hp; [done|].
  rewrite sseRun_cons. destruct (sseStep_flusher s d Hfl Hp). by apply IH.
Qed.

Lemma served_session_flusher r schedule :
  IsFlusher (conn (sseHandler newResponse r schedule)) = true /\
  panicked (sseHandler newResponse r schedule) = false.
Proof. unfold sseHandler. by apply sseRun_flusher. Qed.

(** A tick on a session the server opened: one event, and the loop goes on. *)
Lemma served_session_tick r pre d :
  state (sseHandler newResponse r pre) = Streaming ->
  chosen d = CaseTick ->
  let s := sseHandler newResponse r pre in
  let s' := sseHandler newResponse r (pre ++ [d]) in
  state s' = Streaming /\
  tickerRunning s' = true /\
  Body (conn s') = Body (conn s) ++ tickEvent (host d).
Proof.
  intros Hst Hch. cbn zeta. unfold sseHandler in *. rewrite sseRun_app.
  set (s := sseRun (sseSetup (openSession newResponse) r) pre) in *.
  change (sseRun s [d]) with (sseStep s d).
  assert (ticker_ok s) as Htick by (apply sseRun_ticker_ok, sseSetup_ticker_ok).
  unfold ticker_ok in Htick. rewrite Hst in Htick.
  destruct (served_session_flusher r pre) as [Hfl _]. fold (sseHandler newResponse r pre) in s.
  unfold sseStep. rewrite Hst, Hch.
  destruct (onTick_flusher (host d) s Hfl) as (-> & _ & -> & _ & -> & _). done.
Qed.

Lemma tickEvent_not_empty src : tickEvent src <> [].
Proof. unfold tickEvent. by destruct (snd (getStats src)). Qed.

(** ** The streaming session *)

(** C4. In a session the server opened and that is still streaming, a tick
    whose [getStats] fails writes the event [event: error] with the text of
    the error as data and a blank line, flushes, and leaves the session
    streaming with its ticker running; and any later tick of the session,
    while it is still streaming, whose [getStats] succeeds writes an
    [event: stats] event and flushes. *)
Theorem sse_error_tick_keeps_streaming (r : Request) (pre : list decision)
    (d : decision) (err : error) :
  state (sseHandler newResponse r pre) = Streaming ->
  chosen d = CaseTick ->
  snd (getStats (host d)) = Err err ->
  let s := sseHandler newResponse r pre in
  let s1 := sseHandler newResponse r (pre ++ [d]) in
  state s1 = Streaming /\
  tickerRunning s1 = true /\
  Body (conn s1) =
    Body (conn s) ++
    [Text ("event: error" +:+ nl +:+ "data: " +:+ Error err +:+ nl +:+ nl); Flushed] /\
  forall mid d2 stats,
    state (sseHandler newResponse r ((pre ++ [d]) ++ mid)) = Streaming ->
    chosen d2 = CaseTick ->
    snd (getStats (host d2)) = Ok stats ->
    let s2 := sseHandler newResponse r ((pre ++ [d]) ++ mid) in
    let s3 := sseHandler newResponse r (((pre ++ [d]) ++ mid) ++ [d2]) in
    state s3 = Streaming /\
    Body (conn s3) =
      Body (conn s2) ++
      [Text ("event: stats" +:+ nl +:+ "data: ")] ++
      from_option (fun j => [Encoded j]) [] (marshalSystemStats stats) ++
      [Text (nl +:+ nl); Flushed].
Proof.
  intros Hst Hch Herr. cbn zeta.
  destruct (served_session_tick r pre d Hst Hch) as (Hst1 & Htick1 & Hbody1).
  unfold tickEvent in Hbody1. rewrite Herr in Hbody1.
  split; [done|]. split; [done|]. split; [exact Hbody1|].
  intros mid d2 stats Hst2 Hch2 Hok.
  destruct (served_session_tick r _ d2 Hst2 Hch2) as (Hst3 & _ & Hbody3).
  unfold tickEvent in Hbody3. rewrite Hok in Hbody3.
  split; [done | exact Hbody3].
Qed.

Lemma sse_error_tick_keeps_streaming_witness :
  Body (conn (sseHandler newResponse getEvents [tickOn diskDownHost])) =
    [Text ("event: error" +:+ nl +:+
           "data: error getting disk stats: no such file or directory" +:+ nl +:+ nl);
     Flushed] /\
  state (sseHandler newResponse getEvents [tickOn diskDownHost; tickOn goodHost]) = Streaming.
Proof.
  destruct (sse_error_tick_keeps_streaming getEvents [] (tickOn diskDownHost)
              (Errorf_w "error getting disk stats: " diskError)
              eq_refl eq_refl eq_refl) as (_ & _ & Hbody & Hnext).
  split; [exact Hbody|].
  destruct (Hnext [] (tickOn goodHost) goodStats eq_refl eq_refl eq_refl) as [Hst _].
  exact Hst.
Defined.

Lemma sseHandler_app w r l1 l2 :
  sseHandler w r (l1 ++ l2) = sseRun (sseHandler w r l1) l2.
Proof. unfold sseHandler. apply sseRun_app. Qed.

Lemma sseStep_done s d :
  state s = Streaming -> chosen d = CaseDone -> sseStep s d = leave false (conn s).
Proof. intros Hst Hch. unfold sseStep. by rewrite Hst, Hch. Qed.

Lemma sseHandler_cancel w r pre d post :
  state (sseHandler w r pre) = Streaming ->
  chosen d = CaseDone ->
  sseHandler w r (pre ++ d :: post) = leave false (conn (sseHandler w r pre)).
Proof.
  intros Hst Hch.
  rewrite sseHandler_app, sseRun_cons, (sseStep_done _ _ Hst Hch).
  by rewrite sseRun_closed.
Qed.

(** C5. For every streaming session, on any connection: once a [select]
    runs the cancellation case, the session is closed, its ticker is
    released, and whatever is scheduled afterwards writes nothing more.  On
    every path out of the handler (the return on cancellation and the panic
    of a failed flush) the ticker is released: a closed session never has a
    running ticker, it stays as it is, and a session that is not closed is
    in its loop with the ticker running. *)
Theorem sse_cancellation_closes (w : ResponseWriter) (r : Request)
    (schedule : list decision) :
  let s := sseHandler w r schedule in
  (forall pre d post,
     schedule = pre ++ d :: post ->
     state (sseHandler w r pre) = Streaming ->
     chosen d = CaseDone ->
     state s = Closed /\ tickerRunning s = false /\
     conn s = conn (sseHandler w r pre)) /\
  (state s = Closed ->
     tickerRunning s = false /\
     forall more, sseHandler w r (schedule ++ more) = s) /\
  (state s <> Closed -> state s = Streaming /\ tickerRunning s = true).
Proof.
  cbn zeta. split; [|split].
  - intros pre d post -> Hst Hch.
    by rewrite (sseHandler_cancel _ _ _ _ _ Hst Hch).
  - intros Hcl.
    assert (ticker_ok (sseHandler w r schedule)) as Hok
      by apply sseRun_ticker_ok, sseSetup_ticker_ok.
    unfold ticker_ok in Hok. rewrite Hcl in Hok. split; [done|].
    intros more. rewrite sseHandler_app. by apply sseRun_closed.
  - intros Hncl.
    assert (ticker_ok (sseHandler w r schedule)) as Hok
      by apply sseRun_ticker_ok, sseSetup_ticker_ok.
    assert (state (sseHandler w r schedule) <> Open) as Hno
      by (by apply sseRun_not_open).
    unfold ticker_ok in Hok.
    destruct (state (sseHandler w r schedule)); done.
Qed.

Lemma sse_cancellation_closes_witness :
  state (sseHandler newResponse getEvents
           [tickOn goodHost; cancelAt goodHost; tickOn goodHost]) = Closed /\
  tickerRunning (sseHandler newResponse getEvents
           [tickOn goodHost; cancelAt goodHost; tickOn goodHost]) = false /\
  conn (sseHandler newResponse getEvents
           [tickOn goodHost; cancelAt goodHost; tickOn goodHost]) =
  conn (sseHandler newResponse getEvents [tickOn goodHost]).
Proof.
  destruct (sse_cancellation_closes newResponse getEvents
              [tickOn goodHost; cancelAt goodHost; tickOn goodHost]) as (Hcancel & _).
  exact (Hcancel [tickOn goodHost] (cancelAt goodHost) [tickOn goodHost]
           eq_refl eq_refl eq_refl).
Defined.

(** C7, counterexample. The [select] has no precedence between its cases:
    with both pending it may run the tick case, which writes an event. *)
Lemma cancellation_has_priority_fails : ~ cancellation_has_priority.
Proof.
  intros Hclaim.
  specialize (Hclaim getEvents [] (raceTick goodHost) []).
  assert (Body (conn (sseHandler newResponse getEvents ([] ++ [raceTick goodHost]))) = [])
    as Habs.
  { apply Hclaim; [|reflexivity|reflexivity].
    repeat constructor. }
  vm_compute in Habs. discriminate Habs.
Qed.

(** C7, amended. At a decision of a streaming session where the tick and the
    cancellation are both pending, the [select] may run either case.  If it
    runs the cancellation case, the session closes, releases its ticker and
    writes nothing from then on.  If it runs the tick case, that tick's one
    event is written and the session is back in its loop.  Cancellation is
    certain to be the case run only when it alone is pending. *)
Theorem sse_select_either (r : Request) (pre : list decision) (d : decision) :
  state (sseHandler newResponse r pre) = Streaming ->
  select_ok d = true ->
  both_pending d = true ->
  let s := sseHandler newResponse r pre in
  let s' := sseHandler newResponse r (pre ++ [d]) in
  (can_proceed (pending d) CaseDone = true /\ can_proceed (pending d) CaseTick = true) /\
  ((chosen d = CaseDone /\ state s' = Closed /\ tickerRunning s' = false /\
    forall post, conn (sseHandler newResponse r (pre ++ d :: post)) = conn s)
   \/
   (chosen d = CaseTick /\ state s' = Streaming /\ tickerRunning s' = true /\
    Body (conn s') = Body (conn s) ++ tickEvent (host d) /\
    tickEvent (host d) <> [])) /\
  (forall d', select_ok d' = true ->
              doneReady (pending d') = true -> tickReady (pending d') = false ->
              chosen d' = CaseDone).
Proof.
  intros Hst Hsel Hboth. cbn zeta. split; [|split].
  - unfold both_pending in Hboth. apply andb_true_iff in Hboth. exact Hboth.
  - destruct (chosen d) eqn:Hch.
    + left. split; [done|].
      rewrite (sseHandler_cancel _ _ _ _ [] Hst Hch).
      split; [done|]. split; [done|].
      intros post. by rewrite (sseHandler_cancel _ _ _ _ post Hst Hch).
    + right. split; [done|].
      destruct (served_session_tick r pre d Hst Hch) as (? & ? & ?).
      repeat split; try done. apply tickEvent_not_empty.
  - intros d' Hsel' Hdone Htick. unfold select_ok, can_proceed in Hsel'.
    destruct (chosen d'); [done | congruence].
Qed.

Lemma sse_select_either_witness :
  state (sseHandler newResponse getEvents [raceTick goodHost]) = Streaming /\
  Body (conn (sseHandler newResponse getEvents [raceTick goodHost])) =
    tickEvent goodHost.
Proof.
  destruct (sse_select_either getEvents [] (raceTick goodHost)
              eq_refl eq_refl eq_refl) as (_ & [(Hch & _)|(_ & Hst & _ & Hbody & _)] & _).
  - discriminate Hch.
  - split; [exact Hst | exact Hbody].
Defined.

(** ** The two endpoints *)

Lemma append_assoc (a b c : string) : (a +:+ b) +:+ c = a +:+ b +:+ c.
Proof.
  induction a as [|ch a IH]; [done|].
  change (String ch ((a +:+ b) +:+ c) = String ch (a +:+ b +:+ c)).
  by rewrite IH.
Qed.

Lemma contains_wrapped prefix cause :
  contains (Error (Errorf_w prefix cause) +:+ nl) (Error cause).
Proof. exists prefix, nl. cbn [Error Errorf_w]. apply append_assoc. Qed.

Lemma route_stats p :
  mux_Handler (router (setupRoutes (NewServer p))) "/api/stats" = Some HandleStats.
Proof. reflexivity. Qed.

Lemma route_events p :
  mux_Handler (router (setupRoutes (NewServer p))) "/api/events" = Some HandleEvents.
Proof. reflexivity. Qed.

Lemma statsHandler_get src w r :
  Method r = MethodGet ->
  statsHandler src w r =
  match snd (getStats src) with
  | Err err => http_Error (Error err) StatusInternalServerError w
  | Ok stats =>
    Encode (marshalSystemStats stats) (Header_Set "Content-Type" "application/json" w)
  end.
Proof. intros Hm. unfold statsHandler. by rewrite Hm, String.eqb_refl. Qed.

Lemma statsHandler_other_method src w r :
  Method r <> MethodGet ->
  statsHandler src w r = http_Error "Method not allowed" StatusMethodNotAllowed w.
Proof.
  intros Hm. unfold statsHandler.
  apply String.eqb_neq in Hm. by rewrite Hm.
Qed.

Lemma http_Error_newResponse msg code :
  Status (http_Error msg code newResponse) = Some code /\
  Body (http_Error msg code newResponse) = [Text (msg +:+ nl)] /\
  Header (http_Error msg code newResponse) !! "Content-Type" =
    Some ["text/plain; charset=utf-8"].
Proof. done. Qed.

(** C6. A GET of /api/stats on a host whose reads all succeed with CPU 12.3,
    memory 55.0, disk 80.0, 100 bytes sent and 200 received, and the one
    process 10 named x with CPU 1.0 and 2097152 resident bytes, is answered
    with status 200, content type application/json and the JSON object of
    the specification as body; the resident size is divided by 1,048,576,
    which gives 2.0. *)
Theorem stats_endpoint_scenario (p : string) (schedule : list decision)
    (src : MetricsSource) :
  cpu_Percent src = Ok [12.3%float] ->
  mem_VirtualMemory src = Ok {| mem_UsedPercent := 55.0 |} ->
  disk_Usage src "/" = Ok {| disk_UsedPercent := 80.0 |} ->
  net_IOCounters src = Ok [ {| BytesSent := 100; BytesRecv := 200 |} ] ->
  process_Processes src = Ok [procX] ->
  exists w,
    ServeHTTP (setupRoutes (NewServer p)) src schedule getStatsRequest = Replied w /\
    Status w = Some StatusOK /\
    Header w !! "Content-Type" = Some ["application/json"] /\
    Body w =
      [Encoded
         (JObject
            [ ("cpuUsage", JFloat 64 12.3);
              ("memUsage", JFloat 64 55.0);
              ("diskUsage", JFloat 64 80.0);
              ("netTraffic", JInt 300);
              ("processes",
               JArray [ JObject [ ("pid", JInt 10);
                                  ("name", JString "x");
                                  ("cpuPercent", JFloat 64 1.0);
                                  ("memoryUsage", JFloat 32 2.0) ] ]) ])] /\
    div_MiB (float32_of_uint64 2097152) = 2.0%float.
Proof.
  intros Hcpu Hmem Hdisk Hnet Hprocs.
  unfold ServeHTTP. rewrite route_stats.
  rewrite statsHandler_get by reflexivity.
  rewrite (getStats_ok src _ _ Hcpu _ Hmem _ Hdisk _ _ Hnet _ Hprocs).
  eexists. split; [reflexivity|]. by vm_compute.
Qed.

Lemma stats_endpoint_scenario_witness :
  exists w,
    ServeHTTP (setupRoutes (NewServer "8080")) goodHost [] getStatsRequest = Replied w /\
    Status w = Some 200 /\
    exists body, Body w = [Encoded body].
Proof.
  destruct (stats_endpoint_scenario "8080" [] goodHost
              eq_refl eq_refl eq_refl eq_refl eq_refl)
    as (w & Hserved & Hstatus & _ & Hbody & _).
  exists w. split; [exact Hserved|]. split; [exact Hstatus|].
  eexists. exact Hbody.
Defined.

(** C8. A GET of /api/stats during which [getStats] fails is answered with
    status 500 and a plain-text body that is the text of the error followed
    by a line feed, so that it contains the error's message and, for an error
    that wraps a cause, the message of the cause.  In particular, when the
    CPU and memory reads succeed and the disk read fails, the body contains
    the message of the disk error. *)
Theorem stats_endpoint_failure (p : string) (schedule : list decision)
    (src : MetricsSource) (r : Request) :
  Method r = "GET" ->
  URL_Path r = "/api/stats" ->
  (forall err, snd (getStats src) = Err err ->
     exists w text,
       ServeHTTP (setupRoutes (NewServer p)) src schedule r = Replied w /\
       Status w = Some StatusInternalServerError /\
       Header w !! "Content-Type" = Some ["text/plain; charset=utf-8"] /\
       Body w = [Text text] /\
       contains text (Error err) /\
       (forall prefix cause, err = Errorf_w prefix cause -> contains text (Error cause))) /\
  (forall cpu0 cpus memStats diskErr,
     cpu_Percent src = Ok (cpu0 :: cpus) ->
     mem_VirtualMemory src = Ok memStats ->
     disk_Usage src "/" = Err diskErr ->
     exists w text,
       ServeHTTP (setupRoutes (NewServer p)) src schedule r = Replied w /\
       Status w = Some StatusInternalServerError /\
       Body w = [Text text] /\
       contains text (Error diskErr)).
Proof.
  intros Hm Hpath.
  assert (forall err, snd (getStats src) = Err err ->
            ServeHTTP (setupRoutes (NewServer p)) src schedule r =
            Replied (http_Error (Error err) StatusInternalServerError newResponse))
    as Hserved.
  { intros err Herr. unfold ServeHTTP. rewrite Hpath, route_stats.
    rewrite statsHandler_get by exact Hm. by rewrite Herr. }
  split.
  - intros err Herr.
    destruct (http_Error_newResponse (Error err) StatusInternalServerError)
      as (Hst & Hbody & Hct).
    eexists _, _. split; [by apply Hserved|].
    split; [exact Hst|]. split; [exact Hct|]. split; [exact Hbody|]. split.
    + by exists "", nl.
    + intros prefix cause ->. apply contains_wrapped.
  - intros cpu0 cpus memStats diskErr Hcpu Hmem Hdisk.
    pose proof (getStats_disk_err src _ _ Hcpu _ Hmem _ Hdisk) as Hrun.
    destruct (http_Error_newResponse
                (Error (Errorf_w "error getting disk stats: " diskErr))
                StatusInternalServerError) as (Hst & Hbody & _).
    eexists _, _. split; [apply Hserved; by rewrite Hrun|].
    split; [exact Hst|]. split; [exact Hbody|]. apply contains_wrapped.
Qed.

Lemma stats_endpoint_failure_witness :
  exists w,
    ServeHTTP (setupRoutes (NewServer "")) diskDownHost [] getStatsRequest = Replied w /\
    Status w = Some 500 /\
    Body w = [Text ("error getting disk stats: no such file or directory" +:+ nl)].
Proof.
  destruct (stats_endpoint_failure "" [] diskDownHost getStatsRequest eq_refl eq_refl)
    as [_ Hdisk].
  destruct (Hdisk _ _ _ diskError eq_refl eq_refl eq_refl)
    as (w & text & Hserved & Hstatus & _ & _).
  exists w. split; [exact Hserved|]. split; [exact Hstatus|].
  injection Hserved as <-. reflexivity.
Defined.

(** ** Server construction *)

Lemma setupRoutes_port s : port (setupRoutes s) = port s.
Proof. reflexivity. Qed.

(** C9. At startup the server listens on port 3000 when the variable PORT
    is not set or is empty, and on the value of PORT otherwise.  The port
    is fixed when the server is constructed: registering routes leaves it as
    it is, and the listening address is made from the constructed server's
    port alone. *)
Theorem listen_port (env : gmap string string) :
  (env !! "PORT" = None \/ env !! "PORT" = Some "" ->
   Addr (Start_server (main_server env)) = ":3000") /\
  (forall v, env !! "PORT" = Some v -> v <> "" ->
             Addr (Start_server (main_server env)) = ":" +:+ v) /\
  (forall s pattern h, port (HandleFunc pattern h s) = port s) /\
  (forall s, port (setupRoutes s) = port s) /\
  (forall s, Addr (Start_server s) = ":" +:+ port s).
Proof.
  unfold main_server, os_Getenv.
  split; [|split; [|done]].
  - intros [-> | ->]; reflexivity.
  - intros v -> Hv. cbn [default from_option].
    unfold Start_server, NewServer. cbn [Addr port setupRoutes HandleFunc].
    unfold id. apply String.eqb_neq in Hv. by rewrite Hv.
Qed.

Lemma listen_port_witness :
  Addr (Start_server (main_server ∅)) = ":3000" /\
  Addr (Start_server (main_server {["PORT" := "8080"]})) = ":8080".
Proof.
  split.
  - destruct (listen_port ∅) as (Hdefault & _).
    apply Hdefault. left. reflexivity.
  - destruct (listen_port {["PORT" := "8080"]}) as (_ & Hset & _).
    apply (Hset "8080"); [reflexivity | discriminate].
Defined.

(** C10. A request for /api/events is served by the streaming handler
    whatever its method: the session is the one a GET opens, and its
    response headers hold Content-Type text/event-stream, Cache-Control
    no-cache, Connection keep-alive and Access-Control-Allow-Origin [*],
    at every point of the session.  The same method on /api/stats, when it
    is not GET, is answered with status 405. *)
Theorem events_endpoint_any_method (p : string) (src : MetricsSource)
    (schedule : list decision) (r : Request) :
  URL_Path r = "/api/events" ->
  let srv := setupRoutes (NewServer p) in
  ServeHTTP srv src schedule r = ServeHTTP srv src schedule getEvents /\
  (exists s,
     ServeHTTP srv src schedule r = Streamed s /\
     Header (conn s) !! "Content-Type" = Some ["text/event-stream"] /\
     Header (conn s) !! "Cache-Control" = Some ["no-cache"] /\
     Header (conn s) !! "Connection" = Some ["keep-alive"] /\
     Header (conn s) !! "Access-Control-Allow-Origin" = Some ["*"]) /\
  (Method r <> "GET" ->
   exists w,
     ServeHTTP srv src schedule {| Method := Method r; URL_Path := "/api/stats" |}
       = Replied w /\
     Status w = Some StatusMethodNotAllowed /\
     Body w = [Text ("Method not allowed" +:+ nl)]).
Proof.
  intros Hpath. cbn zeta. unfold ServeHTTP.
  rewrite Hpath. cbn [URL_Path getEvents]. rewrite route_events, route_stats.
  split; [reflexivity|]. split.
  - eexists. split; [reflexivity|].
    unfold sseHandler. rewrite sseRun_header. by vm_compute.
  - intros Hm. eexists. split; [reflexivity|].
    rewrite statsHandler_other_method by exact Hm.
    by destruct (http_Error_newResponse "Method not allowed" StatusMethodNotAllowed)
      as (? & ? & _).
Qed.

Lemma events_endpoint_any_method_witness :
  ServeHTTP (setupRoutes (NewServer "")) goodHost [tickOn goodHost]
    {| Method := "DELETE"; URL_Path := "/api/events" |} =
  ServeHTTP (setupRoutes (NewServer "")) goodHost [tickOn goodHost] getEvents /\
  exists w,
    ServeHTTP (setupRoutes (NewServer "")) goodHost [tickOn goodHost]
      {| Method := "DELETE"; URL_Path := "/api/stats" |} = Replied w /\
    Status w = Some 405.
Proof.
  destruct (events_endpoint_any_method "" goodHost [tickOn goodHost]
              {| Method := "DELETE"; URL_Path := "/api/events" |} eq_refl)
    as (Hsame & _ & Hstats).
  split; [exact Hsame|].
  destruct Hstats as (w & Hserved & Hstatus & _); [discriminate|].
  exists w. split; [exact Hserved | exact Hstatus].
Defined.


(** * Further properties of the code *)

(** ** More on [getStats] *)

(** When the four core reads succeed and the process list cannot be read,
    [getStats] makes no read on any process and returns the error "error
    getting process list: ..." that carries the cause; a GET of /api/stats
    is then answered with status 500 and that text, and a tick of a stream
    writes it as an error event. *)
Theorem getStats_process_list_failure (src : MetricsSource) (cpu0 : float)
    (cpus : list float) (memStats : VirtualMemoryStat) (diskStats : UsageStat)
    (net0 : IOCountersStat) (nets : list IOCountersStat) (cause : error) :
  cpu_Percent src = Ok (cpu0 :: cpus) ->
  mem_VirtualMemory src = Ok memStats ->
  disk_Usage src "/" = Ok diskStats ->
  net_IOCounters src = Ok (net0 :: nets) ->
  process_Processes src = Err cause ->
  let err := Errorf_w "error getting process list: " cause in
  getStats src = (coreCalls, Err err) /\
  carries err cause /\
  Status (statsHandler src newResponse getStatsRequest) = Some StatusInternalServerError /\
  Body (statsHandler src newResponse getStatsRequest) =
    [Text ("error getting process list: " +:+ Error cause +:+ nl)] /\
  tickEvent src =
    [Text ("event: error" +:+ nl +:+ "data: error getting process list: " +:+
           Error cause +:+ nl +:+ nl); Flushed].
Proof.
  intros Hcpu Hmem Hdisk Hnet Hprocs. cbn zeta.
  pose proof (getStats_procs_err src _ _ Hcpu _ Hmem _ Hdisk _ _ Hnet _ Hprocs) as Hrun.
  split; [exact Hrun|]. split; [apply carries_Errorf_w|].
  rewrite statsHandler_get by reflexivity. unfold tickEvent. rewrite Hrun.
  cbn [snd].
  destruct (http_Error_newResponse
              (Error (Errorf_w "error getting process list: " cause))
              StatusInternalServerError) as (Hst & Hbody & _).
  split; [exact Hst|]. split.
  - rewrite Hbody. cbn [Error Errorf_w]. by rewrite append_assoc.
  - unfold errorEvent. cbn [Error Errorf_w]. by rewrite !append_assoc.
Qed.

Lemma getStats_process_list_failure_witness :
  getStats noProcessListHost =
    (coreCalls,
     Err (Errorf_w "error getting process list: "
                   (errorString "open /proc: permission denied"))) /\
  Status (statsHandler noProcessListHost newResponse getStatsRequest) = Some 500.
Proof.
  destruct (getStats_process_list_failure noProcessListHost _ _ _ _ _ _ _
              eq_refl eq_refl eq_refl eq_refl eq_refl) as (Hrun & _ & Hst & _).
  split; [exact Hrun | exact Hst].
Defined.

(** [getStats] reads CPU, memory, the disk at [/], the network counters and
    the process list in that order and stops at the first read that does
    not give what it needs: its log is exactly the reads up to and
    including that one, with no read on any process.  When all five give
    what is needed, the log is the five reads followed, process by process,
    by the reads attempted on it. *)
Theorem getStats_reads_in_order (src : MetricsSource) :
  (forall cause, cpu_Percent src = Err cause ->
     fst (getStats src) = [CallCPUPercent]) /\
  (cpu_Percent src = Ok [] -> fst (getStats src) = [CallCPUPercent]) /\
  (forall cpu0 cpus, cpu_Percent src = Ok (cpu0 :: cpus) ->
   (forall cause, mem_VirtualMemory src = Err cause ->
      fst (getStats src) = [CallCPUPercent; CallVirtualMemory]) /\
   (forall memStats, mem_VirtualMemory src = Ok memStats ->
    (forall cause, disk_Usage src "/" = Err cause ->
       fst (getStats src) = [CallCPUPercent; CallVirtualMemory; CallDiskUsage "/"]) /\
    (forall diskStats, disk_Usage src "/" = Ok diskStats ->
     (forall cause, net_IOCounters src = Err cause ->
        fst (getStats src) =
        [CallCPUPercent; CallVirtualMemory; CallDiskUsage "/"; CallIOCounters]) /\
     (net_IOCounters src = Ok [] ->
        fst (getStats src) =
        [CallCPUPercent; CallVirtualMemory; CallDiskUsage "/"; CallIOCounters]) /\
     (forall net0 nets, net_IOCounters src = Ok (net0 :: nets) ->
      (forall cause, process_Processes src = Err cause ->
         fst (getStats src) =
         [CallCPUPercent; CallVirtualMemory; CallDiskUsage "/"; CallIOCounters;
          CallProcesses]) /\
      (forall procs, process_Processes src = Ok procs ->
         fst (getStats src) =
         [CallCPUPercent; CallVirtualMemory; CallDiskUsage "/"; CallIOCounters;
          CallProcesses] ++ flat_map attempts procs))))).
Proof.
  split; [|split].
  - intros cause Hcpu. by rewrite (getStats_cpu_err src _ Hcpu).
  - intros Hcpu. by rewrite (getStats_cpu_empty src Hcpu).
  - intros cpu0 cpus Hcpu. split.
    { intros cause Hmem. by rewrite (getStats_mem_err src _ _ Hcpu _ Hmem). }
    intros memStats Hmem. split.
    { intros cause Hdisk. by rewrite (getStats_disk_err src _ _ Hcpu _ Hmem _ Hdisk). }
    intros diskStats Hdisk. split; [|split].
    { intros cause Hnet.
      by rewrite (getStats_net_err src _ _ Hcpu _ Hmem _ Hdisk _ Hnet). }
    { intros Hnet. by rewrite (getStats_net_empty src _ _ Hcpu _ Hmem _ Hdisk Hnet). }
    intros net0 nets Hnet. split.
    { intros cause Hprocs.
      by rewrite (getStats_procs_err src _ _ Hcpu _ Hmem _ Hdisk _ _ Hnet _ Hprocs). }
    intros procs Hprocs.
    by rewrite (getStats_ok src _ _ Hcpu _ Hmem _ Hdisk _ _ Hnet _ Hprocs).
Qed.

Lemma getStats_reads_in_order_witness :
  fst (getStats diskDownHost) = [CallCPUPercent; CallVirtualMemory; CallDiskUsage "/"] /\
  fst (getStats mixedHost) =
    [CallCPUPercent; CallVirtualMemory; CallDiskUsage "/"; CallIOCounters; CallProcesses] ++
    flat_map attempts [procX; procNoName; procNoMemory; procZ].
Proof.
  split.
  - destruct (getStats_reads_in_order diskDownHost) as (_ & _ & Hcpu).
    destruct (Hcpu _ _ eq_refl) as (_ & Hmem).
    destruct (Hmem _ eq_refl) as (Hdisk & _).
    exact (Hdisk diskError eq_refl).
  - destruct (getStats_reads_in_order mixedHost) as (_ & _ & Hcpu).
    destruct (Hcpu _ _ eq_refl) as (_ & Hmem).
    destruct (Hmem _ eq_refl) as (_ & Hdisk).
    destruct (Hdisk _ eq_refl) as (_ & _ & Hnet).
    destruct (Hnet _ _ eq_refl) as (_ & Hprocs).
    exact (Hprocs _ eq_refl).
Defined.

(** [getStats] returns a snapshot exactly when the five reads succeed with
    at least one CPU figure and one network entry; the snapshot then holds
    the first CPU figure, the used percentages of memory and of the disk at
    [/], the traffic of the first network entry and the samples of the
    processes. *)
Theorem getStats_succeeds_iff (src : MetricsSource) (stats : SystemStats) :
  snd (getStats src) = Ok stats <->
  exists cpu0 cpus memStats diskStats net0 nets procs,
    cpu_Percent src = Ok (cpu0 :: cpus) /\
    mem_VirtualMemory src = Ok memStats /\
    disk_Usage src "/" = Ok diskStats /\
    net_IOCounters src = Ok (net0 :: nets) /\
    process_Processes src = Ok procs /\
    stats = {| CPUUsage := cpu0;
               MemUsage := mem_UsedPercent memStats;
               DiskUsage := disk_UsedPercent diskStats;
               NetTraffic :=
                 int64_of_uint64 (wrap_uint64 (BytesRecv net0 + BytesSent net0));
               Processes := omap sample procs |}.
Proof.
  split.
  - intros Hok. pose proof (getStats_cases src) as Hc. rewrite Hok in Hc.
    inversion Hc; subst.
    do 7 eexists. repeat (split; [eassumption|]). reflexivity.
  - intros (cpu0 & cpus & memStats & diskStats & net0 & nets & procs &
            Hcpu & Hmem & Hdisk & Hnet & Hprocs & ->).
    by rewrite (getStats_ok src _ _ Hcpu _ Hmem _ Hdisk _ _ Hnet _ Hprocs).
Qed.

Lemma getStats_succeeds_iff_witness :
  snd (getStats goodHost) = Ok goodStats /\
  forall stats, snd (getStats diskDownHost) <> Ok stats.
Proof.
  split.
  - apply (getStats_succeeds_iff goodHost goodStats).
    exists 12.3%float, [], {| mem_UsedPercent := 55.0 |}, {| disk_UsedPercent := 80.0 |},
      {| BytesSent := 100; BytesRecv := 200 |}, [], [procX].
    repeat (split; [reflexivity|]). reflexivity.
  - intros stats Hok. apply (getStats_succeeds_iff diskDownHost stats) in Hok.
    destruct Hok as (? & ? & ? & ? & ? & ? & ? & _ & _ & Hdisk & _).
    discriminate Hdisk.
Defined.

Lemma length_attempts_bounds proc :
  (1 + 2 * length (from_option (fun i => [i]) [] (sample proc)) <= length (attempts proc)
   /\ length (attempts proc) <= 3)%nat.
Proof.
  unfold attempts, sample.
  destruct (Name proc), (CPUPercent proc), (MemoryInfo proc); cbn; lia.
Qed.

Lemma length_flat_map_attempts procs :
  (length procs + 2 * length (omap sample procs) <= length (flat_map attempts procs)
   /\ length (flat_map attempts procs) <= 3 * length procs)%nat.
Proof.
  induction procs as [|proc rest IH]; [cbn; lia|].
  cbn [flat_map omap list_omap]. rewrite length_app.
  pose proof (length_attempts_bounds proc) as Hb.
  destruct (sample proc); cbn [from_option length] in *; lia.
Qed.

(** A successful [getStats] on N processes makes its five core reads and
    between one and three reads per process: at least N plus two for every
    entry of the snapshot, and at most 3 N. *)
Theorem getStats_read_count (src : MetricsSource) (tr : list call)
    (stats : SystemStats) (procs : list Process) :
  getStats src = (tr, Ok stats) ->
  process_Processes src = Ok procs ->
  (5 + length procs + 2 * length (Processes stats) <= length tr /\
   length tr <= 5 + 3 * length procs)%nat.
Proof.
  intros Hrun Hprocs. apply getStats_inv in Hrun. inversion Hrun; subst.
  assert (procs0 = procs) as -> by congruence.
  rewrite length_app. cbn [Processes coreCalls length].
  pose proof (length_flat_map_attempts procs). lia.
Qed.

Lemma getStats_read_count_witness :
  (5 + 4 + 2 * 2 <= length (fst (getStats mixedHost)) /\
   length (fst (getStats mixedHost)) <= 5 + 3 * 4)%nat.
Proof.
  exact (getStats_read_count mixedHost (fst (getStats mixedHost)) mixedStats
           [procX; procNoName; procNoMemory; procZ] eq_refl eq_refl).
Defined.

(** Of the filesystems of the host, [getStats] looks at [/] only: two hosts
    that agree on the other reads and on the disk at [/] give the same run,
    whatever their other filesystems answer. *)
Theorem getStats_root_disk_only (src src' : MetricsSource) :
  cpu_Percent src = cpu_Percent src' ->
  mem_VirtualMemory src = mem_VirtualMemory src' ->
  disk_Usage src "/" = disk_Usage src' "/" ->
  net_IOCounters src = net_IOCounters src' ->
  process_Processes src = process_Processes src' ->
  getStats src = getStats src'.
Proof.
  intros Hcpu Hmem Hdisk Hnet Hprocs. unfold getStats.
  by rewrite Hcpu, Hmem, Hdisk, Hnet, Hprocs.
Qed.

Lemma getStats_root_disk_only_witness :
  disk_Usage otherDiskDownHost "/var" <> disk_Usage goodHost "/var" /\
  getStats otherDiskDownHost = getStats goodHost.
Proof.
  split; [discriminate|].
  exact (getStats_root_disk_only otherDiskDownHost goodHost
           eq_refl eq_refl eq_refl eq_refl eq_refl).
Defined.

Lemma int64_of_uint64_range z :
  0 <= z < 2 ^ 64 -> - 2 ^ 63 <= int64_of_uint64 z < 2 ^ 63.
Proof.
  intros Hz. unfold int64_of_uint64.
  assert (2 ^ 64 = 2 * 2 ^ 63) by reflexivity.
  destruct (Z.ltb_spec z (2 ^ 63)); lia.
Qed.

Lemma int64_of_uint64_congr z : (int64_of_uint64 z - z) mod 2 ^ 64 = 0.
Proof.
  unfold int64_of_uint64. destruct (z <? 2 ^ 63).
  - by rewrite Z.sub_diag.
  - replace (z - 2 ^ 64 - z) with (-1 * 2 ^ 64) by lia. apply Z.mod_mul. done.
Qed.

(** The traffic figure of every snapshot fits a signed 64-bit integer and
    differs from the sum of the two counters of the first network entry by
    a multiple of 2^64, whatever the counters are. *)
Theorem getStats_netTraffic_int64 (src : MetricsSource) (tr : list call)
    (stats : SystemStats) :
  getStats src = (tr, Ok stats) ->
  - 2 ^ 63 <= NetTraffic stats < 2 ^ 63 /\
  exists net0 nets,
    net_IOCounters src = Ok (net0 :: nets) /\
    (NetTraffic stats - (BytesSent net0 + BytesRecv net0)) mod 2 ^ 64 = 0.
Proof.
  intros Hrun. apply getStats_inv in Hrun. inversion Hrun; subst.
  cbn [NetTraffic]. unfold wrap_uint64.
  set (sum := BytesRecv net0 + BytesSent net0).
  assert (0 <= sum mod 2 ^ 64 < 2 ^ 64) as Hr by (apply Z.mod_pos_bound; done).
  split; [by apply int64_of_uint64_range|].
  exists net0, nets. split; [done|].
  replace (BytesSent net0 + BytesRecv net0) with sum by (unfold sum; lia).
  replace (int64_of_uint64 (sum mod 2 ^ 64) - sum)
    with ((int64_of_uint64 (sum mod 2 ^ 64) - sum mod 2 ^ 64)
          + (-(sum / 2 ^ 64)) * 2 ^ 64).
  - rewrite Z.mod_add by done. apply int64_of_uint64_congr.
  - pose proof (Z.div_mod sum (2 ^ 64)). lia.
Qed.

Lemma getStats_netTraffic_int64_witness :
  - 2 ^ 63 <= - 2 ^ 63 < 2 ^ 63 /\
  exists net0 nets,
    net_IOCounters busyNetHost = Ok (net0 :: nets) /\
    (- 2 ^ 63 - (BytesSent net0 + BytesRecv net0)) mod 2 ^ 64 = 0.
Proof.
  exact (getStats_netTraffic_int64 busyNetHost (fst (getStats busyNetHost))
           {| CPUUsage := 12.3%float; MemUsage := 55.0%float;
              DiskUsage := 80.0%float; NetTraffic := - 2 ^ 63;
              Processes := [] |} eq_refl).
Defined.

(** ** The float32 conversion of the resident size *)

(** The conversion of a resident size to float32, made before the division
    by 1024 * 1024, keeps a size below 2^24 bytes as it is and replaces a
    larger one by a multiple m * 2^k with m at most 2^24 and k at most 40
    that differs from it by at most half of 2^k. *)
Theorem round24_accuracy (n : Z) :
  0 <= n < 2 ^ 64 ->
  0 <= snd (round24 n) <= 40 /\
  0 <= fst (round24 n) <= 2 ^ 24 /\
  2 * Z.abs (fst (round24 n) * 2 ^ snd (round24 n) - n) <= 2 ^ snd (round24 n) /\
  (n < 2 ^ 24 -> round24 n = (n, 0)).
Proof.
  intros [H0 H64]. unfold round24.
  destruct (Z.ltb_spec n (2 ^ 24)) as [Hsmall|Hbig].
  - cbn [fst snd]. change (2 ^ 0) with 1. change (2 ^ 24) with 16777216 in *.
    repeat split; try lia.
  - assert (0 < n) as Hpos by lia.
    pose proof (Z.log2_spec n Hpos) as [Hlo Hhi].
    assert (24 <= Z.log2 n) as Hl24 by (by apply Z.log2_le_pow2).
    assert (Z.log2 n < 64) as Hl64 by (by apply Z.log2_lt_pow2).
    set (k := Z.log2 n - 23) in *.
    assert (1 <= k <= 40) as Hk by (unfold k; lia).
    rewrite Z.shiftr_div_pow2, Z.land_ones by lia.
    replace (Z.log2 n) with (k + 23) in Hlo by (unfold k; lia).
    replace (Z.succ (Z.log2 n)) with (k + 24) in Hhi by (unfold k; lia).
    rewrite Z.pow_add_r in Hlo, Hhi by lia.
    assert (2 ^ k = 2 * 2 ^ (k - 1)) as HP.
    { replace k with (1 + (k - 1)) at 1 by lia. rewrite Z.pow_add_r by lia. done. }
    assert (0 < 2 ^ (k - 1)) as Hhalf by (apply Z.pow_pos_nonneg; lia).
    pose proof (Z.div_mod n (2 ^ k) ltac:(lia)) as Hdm.
    pose proof (Z.mod_pos_bound n (2 ^ k) ltac:(lia)) as Hr.
    set (P := 2 ^ k) in *. set (half := 2 ^ (k - 1)) in *.
    set (q := n / P) in *. set (r := n mod P) in *.
    change (2 ^ 23) with 8388608 in *. change (2 ^ 24) with 16777216 in *.
    assert (8388608 <= q < 16777216) as Hq by nia.
    destruct ((half <? r) || ((r =? half) && Z.odd q)) eqn:Hup; cbn [fst snd];
      fold P.
    + assert (half <= r) as Hge.
      { apply orb_true_iff in Hup as [Hup|Hup].
        - apply Z.ltb_lt in Hup. lia.
        - apply andb_true_iff in Hup as [Hup _]. apply Z.eqb_eq in Hup. lia. }
      split; [lia|]. split; [lia|]. split; [|lia].
      replace ((q + 1) * P - n) with (P - r) by nia. lia.
    + assert (r <= half) as Hle.
      { apply orb_false_iff in Hup as [Hup _]. apply Z.ltb_ge in Hup. lia. }
      split; [lia|]. split; [lia|]. split; [|lia].
      replace (q * P - n) with (- r) by nia. lia.
Qed.

Lemma round24_accuracy_witness :
  round24 123456789 = (15432099, 3) /\
  2 * Z.abs (15432099 * 2 ^ 3 - 123456789) <= 2 ^ 3.
Proof.
  split; [reflexivity|].
  by destruct (round24_accuracy 123456789 ltac:(done)) as (_ & _ & Herr & _).
Defined.

(** ** The JSON encoding *)

Lemma encodeFloat_finite bitSize f :
  encodeFloat bitSize f = if finite f then Some (JFloat bitSize f) else None.
Proof.
  unfold encodeFloat, finite.
  by destruct (PrimFloat.is_nan f || PrimFloat.is_infinity f).
Qed.

Lemma marshalProcessInfo_encodable p :
  encodable p -> marshalProcessInfo p = Some (processObject p).
Proof.
  intros [Hc Hm]. unfold marshalProcessInfo.
  rewrite !encodeFloat_finite, Hc, Hm. reflexivity.
Qed.

Lemma marshalProcessInfo_Some p j :
  marshalProcessInfo p = Some j -> encodable p /\ j = processObject p.
Proof.
  unfold marshalProcessInfo, encodable. rewrite !encodeFloat_finite.
  destruct (finite (PCPUPercent p)), (finite (MemoryUsage p)); cbn;
    intros [= <-]; done.
Qed.

Lemma mapM_marshalProcessInfo l js :
  mapM marshalProcessInfo l = Some js <->
  Forall encodable l /\ js = processObject <$> l.
Proof.
  rewrite mapM_Some. split.
  - induction 1 as [|p j l js Hp _ IH]; [done|].
    apply marshalProcessInfo_Some in Hp as [Hp ->]. destruct IH as [IH ->].
    split; [by constructor | done].
  - intros [Hall ->]. induction Hall as [|p l Hp _ IH]; constructor; [|done].
    by apply marshalProcessInfo_encodable.
Qed.

(** The encoder accepts a snapshot exactly when its CPU, memory and disk
    figures and the two floats of every process entry are finite.  What it
    writes is then the object with the keys cpuUsage, memUsage, diskUsage,
    netTraffic and processes, in this order, the last an array with one
    object per process entry, in the order of the entries, with the keys
    pid, name, cpuPercent and memoryUsage. *)
Theorem marshalSystemStats_spec (stats : SystemStats) :
  (is_Some (marshalSystemStats stats) <->
   finite (CPUUsage stats) = true /\ finite (MemUsage stats) = true /\
   finite (DiskUsage stats) = true /\ Forall encodable (Processes stats)) /\
  (forall j, marshalSystemStats stats = Some j ->
     j = JObject [ ("cpuUsage", JFloat 64 (CPUUsage stats));
                   ("memUsage", JFloat 64 (MemUsage stats));
                   ("diskUsage", JFloat 64 (DiskUsage stats));
                   ("netTraffic", JInt (NetTraffic stats));
                   ("processes", JArray (processObject <$> Processes stats)) ]).
Proof.
  unfold marshalSystemStats. rewrite !encodeFloat_finite.
  destruct (finite (CPUUsage stats)), (finite (MemUsage stats)),
    (finite (DiskUsage stats)); cbn [mbind option_bind];
    try (split; [split; [by intros [? [=]] | by intros (? & ? & ? & ?)]
                | by intros ? [=]]).
  destruct (mapM marshalProcessInfo (Processes stats)) as [js|] eqn:Hjs;
    cbn [mbind option_bind].
  - apply mapM_marshalProcessInfo in Hjs as [Hall ->].
    split; [split; [done | by eexists] | by intros j [= <-]].
  - split; [split; [by intros [? [=]] |] | by intros ? [=]].
    intros (_ & _ & _ & Hall).
    assert (mapM marshalProcessInfo (Processes stats) =
            Some (processObject <$> Processes stats)) as Habs
      by (by apply mapM_marshalProcessInfo).
    congruence.
Qed.

Lemma marshalSystemStats_spec_witness :
  marshalSystemStats goodStats =
    Some (JObject [ ("cpuUsage", JFloat 64 12.3);
                    ("memUsage", JFloat 64 55.0);
                    ("diskUsage", JFloat 64 80.0);
                    ("netTraffic", JInt 300);
                    ("processes", JArray (processObject <$> Processes goodStats)) ]).
Proof.
  destruct (marshalSystemStats_spec goodStats) as [_ Hshape].
  destruct (marshalSystemStats goodStats) as [j|] eqn:Hj; [|discriminate Hj].
  by rewrite (Hshape j eq_refl).
Defined.

(** ** More on the handlers *)

(** When [getStats] succeeds with a snapshot the encoder refuses (a figure
    that is not finite), [statsHandler] sets the JSON content type and
    writes neither a status line nor a body: the failure is not reported to
    the client as an error.  A tick of a stream then writes the head of a
    stats event and its blank line with no data between them. *)
Theorem unencodable_snapshot_not_reported (src : MetricsSource) (stats : SystemStats) :
  snd (getStats src) = Ok stats ->
  marshalSystemStats stats = None ->
  let w := statsHandler src newResponse getStatsRequest in
  Status w = None /\
  Body w = [] /\
  Header w !! "Content-Type" = Some ["application/json"] /\
  tickEvent src = [Text statsEventHead; Text (nl +:+ nl); Flushed].
Proof.
  intros Hok Hnone. cbn zeta.
  rewrite statsHandler_get by reflexivity. unfold tickEvent.
  rewrite Hok, Hnone. done.
Qed.

Lemma unencodable_snapshot_not_reported_witness :
  is_ok (snd (getStats nanHost)) = true /\
  Status (statsHandler nanHost newResponse getStatsRequest) = None /\
  Body (statsHandler nanHost newResponse getStatsRequest) = [].
Proof.
  split; [reflexivity|].
  destruct (unencodable_snapshot_not_reported nanHost
              {| CPUUsage := PrimFloat.nan; MemUsage := 55.0%float;
                 DiskUsage := 80.0%float; NetTraffic := 300;
                 Processes := Processes goodStats |} eq_refl eq_refl)
    as (Hst & Hbody & _).
  split; [exact Hst | exact Hbody].
Defined.

(** A request to [statsHandler] with a method other than GET (the
    comparison is exact) is answered without sampling the host: the
    response is the same on every host, and on a fresh writer it is status
    405 with the plain-text body "Method not allowed". *)
Theorem statsHandler_other_method_no_sampling (src src' : MetricsSource)
    (w : ResponseWriter) (r : Request) :
  Method r <> "GET" ->
  statsHandler src w r = statsHandler src' w r /\
  Status (statsHandler src newResponse r) = Some StatusMethodNotAllowed /\
  Body (statsHandler src newResponse r) = [Text ("Method not allowed" +:+ nl)] /\
  Header (statsHandler src newResponse r) !! "Content-Type" =
    Some ["text/plain; charset=utf-8"].
Proof.
  intros Hm. rewrite !statsHandler_other_method by exact Hm.
  split; [reflexivity|].
  apply (http_Error_newResponse "Method not allowed" StatusMethodNotAllowed).
Qed.

Lemma statsHandler_other_method_no_sampling_witness :
  statsHandler goodHost newResponse {| Method := "get"; URL_Path := "/api/stats" |} =
  statsHandler diskDownHost newResponse {| Method := "get"; URL_Path := "/api/stats" |} /\
  Status (statsHandler goodHost newResponse {| Method := "get"; URL_Path := "/api/stats" |})
    = Some 405.
Proof.
  destruct (statsHandler_other_method_no_sampling goodHost diskDownHost newResponse
              {| Method := "get"; URL_Path := "/api/stats" |})
    as (Hsame & Hst & _); [discriminate|].
  split; [exact Hsame | exact Hst].
Defined.

(** The handler of [/] answers every path other than [/] with status 404,
    whatever the method.  On [/] it answers, whatever the method, with a JSON
    object whose endpoints field lists exactly the patterns that
    [setupRoutes] registers for the other handlers. *)
Theorem rootHandler_descriptor (p : string) (r : Request) :
  (URL_Path r <> "/" ->
   Status (rootHandler newResponse r) = Some StatusNotFound /\
   Body (rootHandler newResponse r) = [Text ("404 page not found" +:+ nl)]) /\
  (URL_Path r = "/" ->
   exists info endpoints,
     Status (rootHandler newResponse r) = Some StatusOK /\
     Header (rootHandler newResponse r) !! "Content-Type" = Some ["application/json"] /\
     Body (rootHandler newResponse r) = [Encoded info] /\
     objectField "endpoints" info = Some endpoints /\
     forall pattern,
       pattern ∈ objectKeys endpoints <->
       exists h, (pattern, h) ∈ router (setupRoutes (NewServer p)) /\ h <> HandleRoot).
Proof.
  split.
  - intros Hpath. unfold rootHandler.
    apply String.eqb_neq in Hpath. rewrite Hpath. cbn [negb].
    by destruct (http_Error_newResponse "404 page not found" StatusNotFound)
      as (? & ? & _).
  - intros Hpath. unfold rootHandler. rewrite Hpath, String.eqb_refl. cbn [negb].
    eexists _, _. split; [reflexivity|]. split; [reflexivity|].
    split; [reflexivity|]. split; [reflexivity|].
    intros pattern. cbn -[String.eqb elem_of].
    rewrite !elem_of_cons, elem_of_nil. split.
    + intros [-> | [-> | []]].
      * exists HandleEvents. rewrite !elem_of_cons. split; [auto | done].
      * exists HandleStats. rewrite !elem_of_cons. split; [auto | done].
    + intros (h & Hin & Hh). rewrite !elem_of_cons, elem_of_nil in Hin.
      destruct Hin as [[= -> ->] | [[= -> ->] | [[= -> ->] | []]]]; auto.
Qed.

Lemma rootHandler_descriptor_witness :
  Status (rootHandler newResponse {| Method := "POST"; URL_Path := "/favicon.ico" |})
    = Some 404 /\
  Status (rootHandler newResponse {| Method := "POST"; URL_Path := "/" |}) = Some 200.
Proof.
  split.
  - destruct (rootHandler_descriptor ""
                {| Method := "POST"; URL_Path := "/favicon.ico" |}) as [H404 _].
    by destruct H404 as [Hst _].
  - destruct (rootHandler_descriptor "" {| Method := "POST"; URL_Path := "/" |})
      as [_ H200].
    by destruct H200 as (info & endpoints & Hst & _).
Defined.

(** ** More on the streaming session *)

Lemma sseRun_events schedule : forall s,
  state s = Streaming -> IsFlusher (conn s) = true ->
  Body (conn (sseRun s schedule)) =
    Body (conn s) ++ flat_map (fun d => tickEvent (host d)) (ticksBeforeCancel schedule) /\
  state (sseRun s schedule) = (if forallb isTick schedule then Streaming else Closed).
Proof.
  induction schedule as [|d rest IH]; intros s Hst Hfl.
  - cbn. by rewrite app_nil_r.
  - rewrite sseRun_cons. unfold sseStep. rewrite Hst.
    cbn [ticksBeforeCancel forallb]. unfold isTick at 1.
    destruct (chosen d).
    + rewrite sseRun_closed by done. cbn. by rewrite app_nil_r.
    + destruct (onTick_flusher (host d) s Hfl) as (Hst' & _ & Hbody & Hfl' & _).
      destruct (IH _ Hst' Hfl') as [-> ->].
      rewrite Hbody. cbn [flat_map andb]. by rewrite <- app_assoc.
Qed.

(** A session the server opened has written, at every point, the events of
    the ticks its [select] ran before it first ran the cancellation case:
    one event per tick, in tick order, and nothing else.  It is streaming
    as long as no decision ran the cancellation case, and closed after. *)
Theorem sse_events_in_tick_order (r : Request) (schedule : list decision) :
  let s := sseHandler newResponse r schedule in
  Body (conn s) = flat_map (fun d => tickEvent (host d)) (ticksBeforeCancel schedule) /\
  state s = (if forallb isTick schedule then Streaming else Closed).
Proof.
  cbn zeta. unfold sseHandler.
  by destruct (sseRun_events schedule (sseSetup (openSession newResponse) r)
                 eq_refl eq_refl) as [-> ->].
Qed.

Lemma tickEvent_ends_flushed src : exists l, tickEvent src = l ++ [Flushed].
Proof.
  unfold tickEvent. destruct (snd (getStats src)) as [stats|err].
  - destruct (marshalSystemStats stats) as [j|]; cbn.
    + by exists [Text statsEventHead; Encoded j; Text (nl +:+ nl)].
    + by exists [Text statsEventHead; Text (nl +:+ nl)].
  - by exists [Text (errorEvent err)].
Qed.

Lemma onTick_status src s :
  IsFlusher (conn s) = true ->
  Status (conn (onTick src s)) = Some (default 200 (Status (conn s))).
Proof.
  intros Hfl. unfold onTick, flushAndContinue, Flush, Fprintf.
  destruct (snd (getStats src)) as [stats|err].
  - set (w1 := Write (Text statsEventHead) (conn s)).
    set (w2 := Encode (marshalSystemStats stats) w1).
    set (w3 := Write (Text (nl +:+ nl)) w2).
    destruct (Write_fields (Text statsEventHead) (conn s)) as (_ & _ & F1 & S1).
    destruct (Encode_fields (marshalSystemStats stats) w1) as (_ & _ & F2).
    destruct (Write_fields (Text (nl +:+ nl)) w2) as (_ & _ & F3 & S3).
    destruct (Write_fields Flushed w3) as (_ & _ & _ & S4).
    fold w1 in F1, S1. fold w2 in F2, F3, S3. fold w3 in F3, S3, S4.
    assert (IsFlusher w3 = true) as -> by congruence.
    cbn [conn]. rewrite S4, S3.
    assert (Status w2 = Some (default 200 (Status (conn s)))) as ->; [|done].
    unfold w2. destruct (marshalSystemStats stats) as [j|]; cbn [Encode]; [|done].
    destruct (Write_fields (Encoded j) w1) as (_ & _ & _ & ->). by rewrite S1.
  - set (w1 := Write (Text (errorEvent err)) (conn s)).
    destruct (Write_fields (Text (errorEvent err)) (conn s)) as (_ & _ & F1 & S1).
    destruct (Write_fields Flushed w1) as (_ & _ & _ & S4).
    fold w1 in F1, S1, S4.
    assert (IsFlusher w1 = true) as -> by congruence.
    cbn [conn]. by rewrite S4, S1.
Qed.

Lemma sseStep_silentOrFlushed s d :
  IsFlusher (conn s) = true ->
  silentOrFlushed (conn s) -> silentOrFlushed (conn (sseStep s d)).
Proof.
  intros Hfl Hinv. unfold sseStep. destruct (state s); try done.
  destruct (chosen d); [done|]. right.
  destruct (onTick_flusher (host d) s Hfl) as (_ & _ & Hbody & _).
  destruct (tickEvent_ends_flushed (host d)) as [l Hl].
  rewrite (onTick_status _ _ Hfl), Hbody, Hl, app_assoc, last_snoc.
  by destruct Hinv as [[-> _] | [-> _]].
Qed.

Lemma sseRun_silentOrFlushed schedule : forall s,
  IsFlusher (conn s) = true -> panicked s = false ->
  silentOrFlushed (conn s) -> silentOrFlushed (conn (sseRun s schedule)).
Proof.
  induction schedule as [|d rest IH]; intros s Hfl Hp Hinv; [done|].
  rewrite sseRun_cons. destruct (sseStep_flusher s d Hfl Hp).
  apply IH; [done | done |]. by apply sseStep_silentOrFlushed.
Qed.

(** At every point of a session the server opened, either nothing at all
    has been sent (no status line, no body: the headers wait for the first
    tick), or the status is 200 and the last thing done on the connection was
    a flush, so that no event is left in the buffer. *)
Theorem sse_nothing_left_unflushed (r : Request) (schedule : list decision) :
  let w := conn (sseHandler newResponse r schedule) in
  silentOrFlushed w /\
  (Body w = [] <-> ticksBeforeCancel schedule = []).
Proof.
  cbn zeta. split.
  - unfold sseHandler. apply sseRun_silentOrFlushed; [done | done |]. by left.
  - unfold sseHandler.
    destruct (sseRun_events schedule (sseSetup (openSession newResponse) r)
                eq_refl eq_refl) as [-> _].
    cbn [app Body conn sseSetup openSession newResponse Header_Set].
    destruct (ticksBeforeCancel schedule) as [|d rest]; [done|].
    cbn [flat_map]. split; [|done].
    intros Habs. apply app_eq_nil in Habs as [Habs _].
    by apply tickEvent_not_empty in Habs.
Qed.

(** On a writer that is no [http.Flusher], the first tick writes its event
    and the flush panics: the handler is left with the event unflushed, and
    the deferred stop of the ticker has run. *)
Theorem sse_panics_without_flusher (w : ResponseWriter) (r : Request) (d : decision) :
  IsFlusher w = false ->
  chosen d = CaseTick ->
  let s := sseHandler w r [d] in
  state s = Closed /\
  panicked s = true /\
  tickerRunning s = false /\
  Body (conn s) = Body w ++ removelast (tickEvent (host d)).
Proof.
  intros Hfl Hch. cbn zeta. unfold sseHandler.
  set (s0 := sseSetup (openSession w) r).
  assert (IsFlusher (conn s0) = false) as Hfl0 by exact Hfl.
  assert (Body (conn s0) = Body w) as Hb0 by reflexivity.
  change (sseRun s0 [d]) with (sseStep s0 d).
  unfold sseStep. change (state s0) with Streaming. cbn match. rewrite Hch.
  destruct (onTick_no_flusher (host d) s0 Hfl0) as (-> & -> & ->).
  split; [done|]. split; [done|]. split; [done|].
  rewrite <- Hb0. unfold onTick, tickEvent, Fprintf.
  destruct (snd (getStats (host d))) as [stats|err].
  - set (w1 := Write (Text statsEventHead) (conn s0)).
    set (w2 := Encode (marshalSystemStats stats) w1).
    set (w3 := Write (Text (nl +:+ nl)) w2).
    destruct (Write_fields (Text statsEventHead) (conn s0)) as (_ & B1 & F1 & _).
    destruct (Encode_fields (marshalSystemStats stats) w1) as (_ & B2 & F2).
    destruct (Write_fields (Text (nl +:+ nl)) w2) as (_ & B3 & F3 & _).
    fold w1 in B1, F1. fold w2 in B2, F2, B3, F3. fold w3 in B3, F3.
    rewrite flushAndContinue_no_flusher by congruence.
    cbn [conn leave]. rewrite B3, B2, B1, <- !app_assoc. f_equal.
    by destruct (marshalSystemStats stats).
  - set (w1 := Write (Text (errorEvent err)) (conn s0)).
    destruct (Write_fields (Text (errorEvent err)) (conn s0)) as (_ & B1 & F1 & _).
    fold w1 in B1, F1.
    rewrite flushAndContinue_no_flusher by congruence.
    cbn [conn leave]. by rewrite B1.
Qed.

Lemma sse_panics_without_flusher_witness :
  state (sseHandler plainWriter getEvents [tickOn diskDownHost]) = Closed /\
  panicked (sseHandler plainWriter getEvents [tickOn diskDownHost]) = true /\
  tickerRunning (sseHandler plainWriter getEvents [tickOn diskDownHost]) = false.
Proof.
  destruct (sse_panics_without_flusher plainWriter getEvents (tickOn diskDownHost)
              eq_refl eq_refl) as (Hst & Hp & Ht & _).
  split; [exact Hst|]. split; [exact Hp | exact Ht].
Defined.

(** ** More on the server *)

(** [main] returns normally only after a stop signal followed by a clean
    shutdown.  An error of the listener ends the process through
    [log.Fatal] with the text "server error: " followed by the text of the
    error, which the returned error carries; a failed shutdown ends it with
    the text of the shutdown error.  The environment plays no part. *)
Theorem main_exit (env : gmap string string) (ev : startEvent) :
  (main env ev = Returned <-> ev = StopSignal None) /\
  (forall err, ev = ServeError err ->
     main env ev = Fatal ("server error: " +:+ Error err) /\
     exists e, Start (main_server env) ev = Some e /\ carries e err) /\
  (forall err, ev = StopSignal (Some err) -> main env ev = Fatal (Error err)).
Proof.
  unfold main. split; [|split].
  - destruct ev as [[err|]|err]; cbn; split; intros H; done.
  - intros err ->. cbn. split; [done|].
    eexists. split; [reflexivity | apply carries_Errorf_w].
  - by intros err ->.
Qed.

Lemma main_exit_witness :
  main ∅ (ServeError (errorString "listen tcp :3000: bind: address already in use")) =
  Fatal "server error: listen tcp :3000: bind: address already in use".
Proof.
  destruct (main_exit ∅
              (ServeError (errorString "listen tcp :3000: bind: address already in use")))
    as (_ & Hserve & _).
  by destruct (Hserve _ eq_refl) as [Hmain _].
Defined.

(** Whatever string the server is constructed with, its port is not empty,
    so that the address it listens on always names a port; a port other
    than the empty string is kept as given. *)
Theorem port_never_empty (given : string) :
  port (NewServer given) <> "" /\
  Addr (Start_server (setupRoutes (NewServer given))) <> ":" /\
  (given <> "" -> port (NewServer given) = given).
Proof.
  unfold NewServer, Start_server. cbn [port Addr setupRoutes HandleFunc].
  destruct (String.eqb_spec given "") as [->|Hne].
  - split; [done|]. split; done.
  - split; [done|]. split; [|done].
    intros Habs. apply Hne.
    change (String ":" given = String ":" "") in Habs. by injection Habs.
Qed.

Lemma port_never_empty_witness :
  port (NewServer "") = "3000" /\ port (NewServer "8080") = "8080".
Proof.
  split; [reflexivity|].
  destruct (port_never_empty "8080") as (_ & _ & Hkept).
  apply Hkept. discriminate.
Defined.
